(** * rn_tars: the Chainway UHF RFID bridge

    A shallow embedding of
    - [ChainwayRfidModule.java], the native adapter that turns each promise
      call into one call of the vendor SDK ([RFIDWithUHFUART]) and relays
      the inventory events,
    - [MainActivity.kt], the hook that turns the hardware trigger keys into
      events, and
    - [ChainwayRFID.ts], the typed client facade, and
    - the tag list of [RFIDExample.tsx], the example screen,
    followed by the properties of the bridge contract.

    The vendor SDK and the React Native runtime are not part of the
    repository: the SDK is the interface [IUHF] every property is
    parametric in, and the runtime is the part of [World] the bridge reads
    ([jsModule], [currentReactContext]). *)

From stdpp Require Import base strings gmap list pretty.
From Stdlib Require Import ZArith QArith.

Open Scope Z_scope.

(** ** The Java side: throwables, results, the effects of the bridge *)

Module Java.

(** The classes of throwable the bridge distinguishes.  Its [catch]
    clauses name [ConfigurationException] and [Exception]; a
    [java.lang.Error] is a [Throwable] that is no [Exception]. *)
Inductive jclass :=
| ConfigurationException
| NullPointerException
| IllegalStateException
| RuntimeException
| JavaError.

Record Throwable := mkThrowable {
  classOf : jclass;
  getMessage : option string
}.

(** [e instanceof ConfigurationException] and [e instanceof Exception]. *)
Definition instanceOf_ConfigurationException (e : Throwable) : bool :=
  match classOf e with ConfigurationException => true | _ => false end.

Definition instanceOf_Exception (e : Throwable) : bool :=
  match classOf e with JavaError => false | _ => true end.

(** [prefix + e.getMessage()]: a null message is printed as [null]. *)
Definition concat_message (prefix : string) (e : Throwable) : string :=
  prefix +:+ default "null" (getMessage e).

(** Dereferencing a null reference. *)
Definition null_dereference : Throwable :=
  mkThrowable NullPointerException None.

(** A Java call either returns or throws. *)
Inductive jresult (A : Type) :=
| Returned (a : A)
| Thrown (e : Throwable).
Arguments Returned {A} a.
Arguments Thrown {A} e.

(** The reader object of the SDK, a process-wide singleton. *)
Inductive RFIDWithUHFUART := TheReader.

(** The event emitter of the JS runtime. *)
Inductive RCTDeviceEventEmitter := TheEmitter.

(** [UHFTAGInfo], the tag record of the SDK; its string getters may
    return null. *)
Record UHFTAGInfo := mkTag {
  getEPC : option string;
  getTid : option string;
  getUser : option string;
  getRssi : option string;
  getCount : Z
}.

(** The SDK methods the adapter calls, with their arguments. *)
Inductive sdk_call :=
| GetInstance
| Init
| Free
| GetVersion
| SetPower (power : Z)
| GetPower
| SetFrequencyMode (mode : Z)
| GetFrequencyMode
| SetInventoryCallback
| StartInventoryTag
| StopInventory
| InventorySingleTag
| ReadData (accessPwd : string) (bank ptr cnt : Z)
| WriteData (accessPwd : string) (bank ptr cnt : Z) (data : string)
| WriteDataToEpc (accessPwd epcData : string)
| SetFilter (bank ptr cnt : Z) (data : string)
| LockMem (accessPwd lockCode : string)
| KillTag (killPwd : string)
| IsInventorying
| SetEPCMode
| SetEPCAndTIDMode.

(** What a promise is resolved with. *)
Inductive jsvalue :=
| VBool (b : bool)
| VInt (z : Z)
| VString (s : string)
| VMap (m : gmap string string).

(** A value of the constants map a native module publishes. *)
Inductive constant :=
| CInt (z : Z)
| CStr (s : string).

(** What happens while the bridge runs, in order: a call of the SDK, a
    throwable being raised, an event handed to the JS emitter, the
    promise being settled. *)
Inductive action :=
| HwCall (c : sdk_call)
| Raise (e : Throwable)
| Emit (eventName : string) (params : option (gmap string string))
| Resolve (v : jsvalue)
| Reject (code message : string).

(** The vendor SDK ([IUHF] / [RFIDWithUHFUART]) over a hardware state
    [hw]: every method takes the state of the device and either returns
    or throws, leaving a new state. *)
Class IUHF (hw : Type) := {
  Bank_RESERVED : Z;
  Bank_EPC : Z;
  Bank_TID : Z;
  Bank_USER : Z;
  sdk_getInstance : hw -> jresult (option RFIDWithUHFUART) * hw;
  sdk_init : hw -> jresult bool * hw;
  sdk_free : hw -> jresult bool * hw;
  sdk_getVersion : hw -> jresult (option string) * hw;
  sdk_setPower : hw -> Z -> jresult bool * hw;
  sdk_getPower : hw -> jresult Z * hw;
  sdk_setFrequencyMode : hw -> Z -> jresult bool * hw;
  sdk_getFrequencyMode : hw -> jresult Z * hw;
  sdk_setInventoryCallback : hw -> jresult unit * hw;
  sdk_startInventoryTag : hw -> jresult bool * hw;
  sdk_stopInventory : hw -> jresult bool * hw;
  sdk_inventorySingleTag : hw -> jresult (option UHFTAGInfo) * hw;
  sdk_readData : hw -> string -> Z -> Z -> Z -> jresult (option string) * hw;
  sdk_writeData : hw -> string -> Z -> Z -> Z -> string -> jresult bool * hw;
  sdk_writeDataToEpc : hw -> string -> string -> jresult bool * hw;
  sdk_setFilter : hw -> Z -> Z -> Z -> string -> jresult bool * hw;
  sdk_lockMem : hw -> string -> string -> jresult bool * hw;
  sdk_killTag : hw -> string -> jresult bool * hw;
  sdk_isInventorying : hw -> jresult bool * hw;
  sdk_setEPCMode : hw -> jresult bool * hw;
  sdk_setEPCAndTIDMode : hw -> jresult bool * hw
}.

(** The state the bridge runs in. *)
Record World (hw : Type) := mkWorld {
  device : hw;
  (** the field [rfidReader] of the module; [None] is null *)
  rfidReader : option RFIDWithUHFUART;
  (** whether the module has handed its inventory callback to the SDK *)
  inventoryCallback : bool;
  (** what [getJSModule(RCTDeviceEventEmitter.class)] does on the React
      context right now *)
  jsModule : jresult (option RCTDeviceEventEmitter);
  (** whether [reactInstanceManager.currentReactContext] is non-null *)
  currentReactContext : bool
}.
Arguments mkWorld {hw}.
Arguments device {hw}.
Arguments rfidReader {hw}.
Arguments inventoryCallback {hw}.
Arguments jsModule {hw}.
Arguments currentReactContext {hw}.

(** Java code as a state, exception and trace monad. *)
Definition M (hw A : Type) : Type :=
  World hw -> jresult A * World hw * list action.

Section Monad.
Context {hw : Type}.

Definition ret {A} (a : A) : M hw A :=
  fun w => (Returned a, w, []).

Definition bind {A B} (m : M hw A) (k : A -> M hw B) : M hw B :=
  fun w =>
    match m w with
    | (Returned a, w1, t1) =>
        match k a w1 with
        | (r, w2, t2) => (r, w2, t1 ++ t2)
        end
    | (Thrown e, w1, t1) => (Thrown e, w1, t1)
    end.

Definition throw {A} (e : Throwable) : M hw A :=
  fun w => (Thrown e, w, [Raise e]).

Definition perform (a : action) : M hw unit :=
  fun w => (Returned tt, w, [a]).

(** One [catch] clause: the class test and the handler. *)
Definition catch_clause : Type :=
  (Throwable -> bool) * (Throwable -> M hw unit).

Fixpoint select_clause (e : Throwable) (cs : list catch_clause)
  : option (M hw unit) :=
  match cs with
  | [] => None
  | (test, handler) :: cs' =>
      if test e then Some (handler e) else select_clause e cs'
  end.

(** [try { body } catch (C1 e) { .. } catch (C2 e) { .. }]: the first
    clause whose class matches handles the throwable; with none, it
    propagates. *)
Definition try_catch (body : M hw unit) (cs : list catch_clause)
  : M hw unit :=
  fun w =>
    match body w with
    | (Returned a, w1, t1) => (Returned a, w1, t1)
    | (Thrown e, w1, t1) =>
        match select_clause e cs with
        | Some handler =>
            match handler w1 with
            | (r, w2, t2) => (r, w2, t1 ++ t2)
            end
        | None => (Thrown e, w1, t1)
        end
    end.

Definition read_rfidReader : M hw (option RFIDWithUHFUART) :=
  fun w => (Returned (rfidReader w), w, []).

Definition write_rfidReader (r : option RFIDWithUHFUART) : M hw unit :=
  fun w =>
    (Returned tt,
     mkWorld (device w) r (inventoryCallback w) (jsModule w)
             (currentReactContext w),
     []).

Definition register_callback : M hw unit :=
  fun w =>
    (Returned tt,
     mkWorld (device w) (rfidReader w) true (jsModule w)
             (currentReactContext w),
     []).

(** A call of the SDK: logged, run on the device, its result or its
    throwable passed on. *)
Definition call {A} (c : sdk_call) (f : hw -> jresult A * hw) : M hw A :=
  fun w =>
    match f (device w) with
    | (r, d) =>
        (r,
         mkWorld d (rfidReader w) (inventoryCallback w) (jsModule w)
                 (currentReactContext w),
         match r with
         | Returned _ => [HwCall c]
         | Thrown e => [HwCall c; Raise e]
         end)
    end.

Definition resolve (v : jsvalue) : M hw unit := perform (Resolve v).

Definition reject (code message : string) : M hw unit :=
  perform (Reject code message).

End Monad.

Definition result_of {hw A} (x : jresult A * World hw * list action)
  : jresult A := fst (fst x).
Definition world_of {hw A} (x : jresult A * World hw * list action)
  : World hw := snd (fst x).
Definition trace_of {hw A} (x : jresult A * World hw * list action)
  : list action := snd x.

End Java.

Export Java.

Notation "'let*' x ':=' c1 'in' c2" :=
  (bind c1 (fun x => c2))
    (at level 10, x name, c1 at level 99, c2 at level 200).
Notation "c1 ';;' c2" :=
  (bind c1 (fun _ => c2))
    (at level 100, c2 at level 200, right associativity).

(** ** ChainwayRfidModule.java: the device adapter *)

Module ChainwayRfidModule.

Definition MODULE_NAME : string := "ChainwayRfid".
Definition EVENT_TAG_READ : string := "onTagRead".
Definition EVENT_INVENTORY_START : string := "onInventoryStart".
Definition EVENT_INVENTORY_STOP : string := "onInventoryStop".

(** [catch (Exception e) { promise.reject(code, prefix + e.getMessage(), e); }] *)
Definition catch_Exception {hw} (code prefix : string) : catch_clause (hw:=hw) :=
  (instanceOf_Exception, fun e => reject code (concat_message prefix e)).

(** [catch (ConfigurationException e) { promise.reject(code, ..., e); }] *)
Definition catch_ConfigurationException {hw} (code prefix : string)
  : catch_clause (hw:=hw) :=
  (instanceOf_ConfigurationException,
   fun e => reject code (concat_message prefix e)).

(** [createTagMap]: a null record gives the empty map; a null field is
    stored as the empty string. *)
Definition createTagMap (tagInfo : option UHFTAGInfo) : gmap string string :=
  match tagInfo with
  | None => ∅
  | Some t =>
      <["count" := pretty (getCount t)]>
      (<["rssi" := default "" (getRssi t)]>
      (<["user" := default "" (getUser t)]>
      (<["tid" := default "" (getTid t)]>
      (<["epc" := default "" (getEPC t)]> ∅))))
  end.

Section Adapter.
Context {hw : Type} `{!IUHF hw}.

(** [reactContext.getJSModule(RCTDeviceEventEmitter.class).emit(..)]:
    [getJSModule] may throw, and a null emitter cannot be called. *)
Definition sendEvent (eventName : string)
    (params : option (gmap string string)) : M hw unit :=
  fun w =>
    match jsModule w with
    | Returned (Some _) => perform (Emit eventName params) w
    | Returned None => throw null_dereference w
    | Thrown e => throw e w
    end.

Definition sendTagReadEvent (tagInfo : option UHFTAGInfo) : M hw unit :=
  let tag := createTagMap tagInfo in
  sendEvent EVENT_TAG_READ (Some tag).

(** The guard at the head of every method but [init]. *)
Definition unless_null (body : M hw unit) : M hw unit :=
  let* r := read_rfidReader in
  match r with
  | None => reject "NOT_INITIALIZED" "RFID reader not initialized"
  | Some _ => body
  end.

Definition init : M hw unit :=
  try_catch
    (let* instance := call GetInstance sdk_getInstance in
     write_rfidReader instance ;;
     let* result :=
       match instance with
       | Some _ => call Init sdk_init
       | None => throw null_dereference
       end in
     if (result : bool) then resolve (VBool true)
     else reject "INIT_FAILED" "Failed to initialize RFID reader")
    [catch_ConfigurationException "CONFIG_ERROR" "Configuration error: ";
     catch_Exception "INIT_ERROR" "Error initializing RFID reader: "].

Definition free : M hw unit :=
  try_catch
    (unless_null
       (let* result := call Free sdk_free in
        resolve (VBool result)))
    [catch_Exception "FREE_ERROR" "Error freeing RFID reader: "].

Definition getVersion : M hw unit :=
  try_catch
    (unless_null
       (let* version := call GetVersion sdk_getVersion in
        match version with
        | Some v => resolve (VString v)
        | None => reject "VERSION_ERROR" "Failed to get version"
        end))
    [catch_Exception "VERSION_ERROR" "Error getting version: "].

Definition setPower (power : Z) : M hw unit :=
  try_catch
    (unless_null
       (let* result := call (SetPower power) (fun d => sdk_setPower d power) in
        resolve (VBool result)))
    [catch_Exception "POWER_ERROR" "Error setting power: "].

Definition getPower : M hw unit :=
  try_catch
    (unless_null
       (let* power := call GetPower sdk_getPower in
        resolve (VInt power)))
    [catch_Exception "POWER_ERROR" "Error getting power: "].

Definition setFrequencyMode (mode : Z) : M hw unit :=
  try_catch
    (unless_null
       (let* result :=
          call (SetFrequencyMode mode) (fun d => sdk_setFrequencyMode d mode) in
        resolve (VBool result)))
    [catch_Exception "FREQUENCY_ERROR" "Error setting frequency: "].

Definition getFrequencyMode : M hw unit :=
  try_catch
    (unless_null
       (let* mode := call GetFrequencyMode sdk_getFrequencyMode in
        resolve (VInt mode)))
    [catch_Exception "FREQUENCY_ERROR" "Error getting frequency: "].

Definition startInventory : M hw unit :=
  try_catch
    (unless_null
       (register_callback ;;
        call SetInventoryCallback sdk_setInventoryCallback ;;
        let* result := call StartInventoryTag sdk_startInventoryTag in
        if (result : bool) then
          sendEvent EVENT_INVENTORY_START None ;;
          resolve (VBool true)
        else reject "START_ERROR" "Failed to start inventory"))
    [catch_Exception "START_ERROR" "Error starting inventory: "].

Definition stopInventory : M hw unit :=
  try_catch
    (unless_null
       (let* result := call StopInventory sdk_stopInventory in
        if (result : bool) then
          sendEvent EVENT_INVENTORY_STOP None ;;
          resolve (VBool true)
        else reject "STOP_ERROR" "Failed to stop inventory"))
    [catch_Exception "STOP_ERROR" "Error stopping inventory: "].

Definition inventorySingleTag : M hw unit :=
  try_catch
    (unless_null
       (let* tagInfo := call InventorySingleTag sdk_inventorySingleTag in
        match tagInfo with
        | Some t =>
            let tag := createTagMap (Some t) in
            resolve (VMap tag)
        | None => reject "NO_TAG" "No tag found"
        end))
    [catch_Exception "READ_ERROR" "Error reading tag: "].

Definition readData (accessPwd : string) (bank ptr cnt : Z) : M hw unit :=
  try_catch
    (unless_null
       (let* data :=
          call (ReadData accessPwd bank ptr cnt)
               (fun d => sdk_readData d accessPwd bank ptr cnt) in
        match data with
        | Some s => resolve (VString s)
        | None => reject "READ_ERROR" "Failed to read data from tag"
        end))
    [catch_Exception "READ_ERROR" "Error reading data: "].

Definition writeData (accessPwd : string) (bank ptr cnt : Z)
    (data : string) : M hw unit :=
  try_catch
    (unless_null
       (let* result :=
          call (WriteData accessPwd bank ptr cnt data)
               (fun d => sdk_writeData d accessPwd bank ptr cnt data) in
        resolve (VBool result)))
    [catch_Exception "WRITE_ERROR" "Error writing data: "].

Definition writeEPC (accessPwd epcData : string) : M hw unit :=
  try_catch
    (unless_null
       (let* result :=
          call (WriteDataToEpc accessPwd epcData)
               (fun d => sdk_writeDataToEpc d accessPwd epcData) in
        resolve (VBool result)))
    [catch_Exception "WRITE_ERROR" "Error writing EPC: "].

Definition setFilter (bank ptr cnt : Z) (data : string) : M hw unit :=
  try_catch
    (unless_null
       (let* result :=
          call (SetFilter bank ptr cnt data)
               (fun d => sdk_setFilter d bank ptr cnt data) in
        resolve (VBool result)))
    [catch_Exception "FILTER_ERROR" "Error setting filter: "].

Definition lockTag (accessPwd lockCode : string) : M hw unit :=
  try_catch
    (unless_null
       (let* result :=
          call (LockMem accessPwd lockCode)
               (fun d => sdk_lockMem d accessPwd lockCode) in
        resolve (VBool result)))
    [catch_Exception "LOCK_ERROR" "Error locking tag: "].

Definition killTag (killPwd : string) : M hw unit :=
  try_catch
    (unless_null
       (let* result :=
          call (KillTag killPwd) (fun d => sdk_killTag d killPwd) in
        resolve (VBool result)))
    [catch_Exception "KILL_ERROR" "Error killing tag: "].

Definition isInventorying : M hw unit :=
  try_catch
    (unless_null
       (let* result := call IsInventorying sdk_isInventorying in
        resolve (VBool result)))
    [catch_Exception "STATUS_ERROR" "Error checking inventory status: "].

Definition setEPCMode : M hw unit :=
  try_catch
    (unless_null
       (let* result := call SetEPCMode sdk_setEPCMode in
        resolve (VBool result)))
    [catch_Exception "MODE_ERROR" "Error setting EPC mode: "].

Definition setEPCAndTIDMode : M hw unit :=
  try_catch
    (unless_null
       (let* result := call SetEPCAndTIDMode sdk_setEPCAndTIDMode in
        resolve (VBool result)))
    [catch_Exception "MODE_ERROR" "Error setting EPC+TID mode: "].

(** The callback object [startInventory] hands to the SDK: its
    [callback] method has no [try]. *)
Definition IUHFInventoryCallback_callback (uhftagInfo : option UHFTAGInfo)
  : M hw unit :=
  sendTagReadEvent uhftagInfo.

(** [getConstants]: the map published to JavaScript. *)
Definition getConstants : gmap string constant :=
  <["EVENT_INVENTORY_STOP" := CStr EVENT_INVENTORY_STOP]>
  (<["EVENT_INVENTORY_START" := CStr EVENT_INVENTORY_START]>
  (<["EVENT_TAG_READ" := CStr EVENT_TAG_READ]>
  (<["FREQ_JAPAN" := CInt 0x32]>
  (<["FREQ_KOREA" := CInt 0x16]>
  (<["FREQ_USA" := CInt 0x08]>
  (<["FREQ_EUROPE" := CInt 0x04]>
  (<["FREQ_CHINA_920" := CInt 0x02]>
  (<["FREQ_CHINA_840" := CInt 0x01]>
  (<["BANK_USER" := CInt Bank_USER]>
  (<["BANK_TID" := CInt Bank_TID]>
  (<["BANK_EPC" := CInt Bank_EPC]>
  (<["BANK_RESERVED" := CInt Bank_RESERVED]> ∅)))))))))))).

(** The [@ReactMethod]s, as the calls JavaScript can make. *)
Inductive request :=
| R_init
| R_free
| R_getVersion
| R_setPower (power : Z)
| R_getPower
| R_setFrequencyMode (mode : Z)
| R_getFrequencyMode
| R_startInventory
| R_stopInventory
| R_inventorySingleTag
| R_readData (accessPwd : string) (bank ptr cnt : Z)
| R_writeData (accessPwd : string) (bank ptr cnt : Z) (data : string)
| R_writeEPC (accessPwd epcData : string)
| R_setFilter (bank ptr cnt : Z) (data : string)
| R_lockTag (accessPwd lockCode : string)
| R_killTag (killPwd : string)
| R_isInventorying
| R_setEPCMode
| R_setEPCAndTIDMode.

Definition invoke (r : request) : M hw unit :=
  match r with
  | R_init => init
  | R_free => free
  | R_getVersion => getVersion
  | R_setPower power => setPower power
  | R_getPower => getPower
  | R_setFrequencyMode mode => setFrequencyMode mode
  | R_getFrequencyMode => getFrequencyMode
  | R_startInventory => startInventory
  | R_stopInventory => stopInventory
  | R_inventorySingleTag => inventorySingleTag
  | R_readData accessPwd bank ptr cnt => readData accessPwd bank ptr cnt
  | R_writeData accessPwd bank ptr cnt data =>
      writeData accessPwd bank ptr cnt data
  | R_writeEPC accessPwd epcData => writeEPC accessPwd epcData
  | R_setFilter bank ptr cnt data => setFilter bank ptr cnt data
  | R_lockTag accessPwd lockCode => lockTag accessPwd lockCode
  | R_killTag killPwd => killTag killPwd
  | R_isInventorying => isInventorying
  | R_setEPCMode => setEPCMode
  | R_setEPCAndTIDMode => setEPCAndTIDMode
  end.

End Adapter.

Arguments request : clear implicits.

End ChainwayRfidModule.

(** ** MainActivity.kt: the trigger keys *)

Module MainActivity.

(** A key handler either consumes the key or leaves it to [super]. *)
Inductive key_result :=
| Consumed
| Super.

Definition is_trigger_key (keyCode : Z) : bool :=
  (keyCode =? 280) || (keyCode =? 293) || (keyCode =? 294).

Section Activity.
Context {hw : Type}.

(** [currentReactContext?.getJSModule(..)?.emit(eventName, null)]: a
    null context or a null emitter drops the event; a throwing
    [getJSModule] is not caught. *)
Definition sendTriggerEvent (eventName : string) : M hw unit :=
  fun w =>
    if currentReactContext w then
      match jsModule w with
      | Returned (Some _) => perform (Emit eventName None) w
      | Returned None => ret tt w
      | Thrown e => throw e w
      end
    else ret tt w.

Definition onKeyDown (keyCode : Z) : M hw key_result :=
  if is_trigger_key keyCode then
    sendTriggerEvent "onTriggerPress" ;; ret Consumed
  else ret Super.

Definition onKeyUp (keyCode : Z) : M hw key_result :=
  if is_trigger_key keyCode then
    sendTriggerEvent "onTriggerRelease" ;; ret Consumed
  else ret Super.

End Activity.

End MainActivity.

(** ** The running application: what can happen to the bridge *)

Module Bridge.
Import ChainwayRfidModule.

Inductive stimulus :=
| JsCall (r : request)
| KeyDown (keyCode : Z)
| KeyUp (keyCode : Z)
(** the SDK invokes the inventory callback it was given *)
| TagCallback (uhftagInfo : option UHFTAGInfo)
(** the React runtime changes state (context created or torn down) *)
| Runtime (js : jresult (option RCTDeviceEventEmitter)) (ctx : bool).

Section System.
Context {hw : Type} `{!IUHF hw}.

Definition react (s : stimulus) : M hw unit :=
  match s with
  | JsCall r => invoke r
  | KeyDown keyCode => MainActivity.onKeyDown keyCode ;; ret tt
  | KeyUp keyCode => MainActivity.onKeyUp keyCode ;; ret tt
  | TagCallback uhftagInfo =>
      fun w =>
        if inventoryCallback w
        then IUHFInventoryCallback_callback uhftagInfo w
        else ret tt w
  | Runtime js ctx =>
      fun w =>
        (Returned tt,
         mkWorld (device w) (rfidReader w) (inventoryCallback w) js ctx,
         [])
  end.

(** The stimuli are served in order; an uncaught throwable ends the
    run. *)
Fixpoint run (ss : list stimulus) : M hw unit :=
  match ss with
  | [] => ret tt
  | s :: ss' => react s ;; run ss'
  end.

(** The process starts with no reader and no callback. *)
Definition startup (d : hw) (js : jresult (option RCTDeviceEventEmitter))
    (ctx : bool) : World hw :=
  mkWorld d None false js ctx.

End System.

End Bridge.

(** ** ChainwayRFID.ts: the client facade *)

Module ChainwayRFID.

(** A JavaScript [number]: NaN, the two infinities, or a finite value
    (every finite double is a rational). *)
Inductive number :=
| NaN
| Infinity (negative : bool)
| Finite (q : Q).

Definition of_Z (z : Z) : number := Finite (inject_Z z).

(** The operator [<] on numbers: false as soon as one side is NaN. *)
Definition lt (x y : number) : bool :=
  match x, y with
  | NaN, _ => false
  | _, NaN => false
  | Infinity true, Infinity true => false
  | Infinity true, _ => true
  | _, Infinity true => false
  | Infinity false, _ => false
  | Finite _, Infinity false => true
  | Finite a, Finite b =>
      match Qcompare a b with Lt => true | _ => false end
  end.

(** [x > y] is [y < x]. *)
Definition gt (x y : number) : bool := lt y x.

(** The calls the facade makes on the native module. *)
Inductive native_call :=
| N_init
| N_free
| N_getVersion
| N_setPower (power : number)
| N_getPower
| N_setFrequencyMode (mode : number)
| N_getFrequencyMode
| N_startInventory
| N_stopInventory
| N_inventorySingleTag
| N_isInventorying
| N_setEPCMode
| N_setEPCAndTIDMode.

(** What a facade method returns: a promise it rejected itself, or the
    promise of the native call it made. *)
Inductive promise :=
| Promise_reject (message : string)
| Native (c : native_call).

Definition init : promise := Native N_init.
Definition free : promise := Native N_free.
Definition getVersion : promise := Native N_getVersion.

Definition setPower (power : number) : promise :=
  if lt power (of_Z 0) || gt power (of_Z 30) then
    Promise_reject "Power must be between 0 and 30"
  else Native (N_setPower power).

Definition getPower : promise := Native N_getPower.
Definition setFrequencyMode (mode : number) : promise :=
  Native (N_setFrequencyMode mode).
Definition getFrequencyMode : promise := Native N_getFrequencyMode.
Definition startInventory : promise := Native N_startInventory.
Definition stopInventory : promise := Native N_stopInventory.
Definition inventorySingleTag : promise := Native N_inventorySingleTag.
Definition isInventorying : promise := Native N_isInventorying.
Definition setEPCMode : promise := Native N_setEPCMode.
Definition setEPCAndTIDMode : promise := Native N_setEPCAndTIDMode.

(** An entry of [NativeModules]: null, or a module object with the
    constants it publishes.  A missing entry reads as undefined. *)
Inductive js_module :=
| JsNull
| JsObject (constants : gmap string constant).

(** The static fields of the class, read once from the native module; a
    missing property reads as undefined ([None]). *)
Record Facade := mkFacade {
  BANK_RESERVED : option constant;
  BANK_EPC : option constant;
  BANK_TID : option constant;
  BANK_USER : option constant;
  FREQ_CHINA_840 : option constant;
  FREQ_CHINA_920 : option constant;
  FREQ_EUROPE : option constant;
  FREQ_USA : option constant;
  FREQ_KOREA : option constant;
  FREQ_JAPAN : option constant;
  EVENT_TAG_READ : option constant;
  EVENT_INVENTORY_START : option constant;
  EVENT_INVENTORY_STOP : option constant
}.

(** Evaluating the module: [const { ChainwayRfid } = NativeModules], the
    guard [if (!ChainwayRfid) throw new Error(..)], then the class. *)
Definition load (NativeModules : gmap string js_module) : string + Facade :=
  match NativeModules !! "ChainwayRfid" with
  | None => inl "ChainwayRfid native module is not available"
  | Some JsNull => inl "ChainwayRfid native module is not available"
  | Some (JsObject RfidModule) =>
      inr {| BANK_RESERVED := RfidModule !! "BANK_RESERVED";
             BANK_EPC := RfidModule !! "BANK_EPC";
             BANK_TID := RfidModule !! "BANK_TID";
             BANK_USER := RfidModule !! "BANK_USER";
             FREQ_CHINA_840 := RfidModule !! "FREQ_CHINA_840";
             FREQ_CHINA_920 := RfidModule !! "FREQ_CHINA_920";
             FREQ_EUROPE := RfidModule !! "FREQ_EUROPE";
             FREQ_USA := RfidModule !! "FREQ_USA";
             FREQ_KOREA := RfidModule !! "FREQ_KOREA";
             FREQ_JAPAN := RfidModule !! "FREQ_JAPAN";
             EVENT_TAG_READ := RfidModule !! "EVENT_TAG_READ";
             EVENT_INVENTORY_START := RfidModule !! "EVENT_INVENTORY_START";
             EVENT_INVENTORY_STOP := RfidModule !! "EVENT_INVENTORY_STOP" |}
  end.

(** [interface TagInfo]: what a tag-read listener receives. *)
Record TagInfo := mkTagInfo {
  epc : string;
  tid : string;
  user : string;
  rssi : string;
  count : string
}.

(** The calls the facade makes on its [NativeEventEmitter]. *)
Inductive emitter_call (listener : Type) :=
| AddListener (eventType : option constant) (callback : listener)
| RemoveAllListeners (eventType : option constant).
Arguments AddListener {listener} eventType callback.
Arguments RemoveAllListeners {listener} eventType.

Section Listeners.
Context {listener : Type}.

Definition addTagReadListener (facade : Facade) (callback : listener)
  : emitter_call listener :=
  AddListener (EVENT_TAG_READ facade) callback.

Definition addInventoryStartListener (facade : Facade) (callback : listener)
  : emitter_call listener :=
  AddListener (EVENT_INVENTORY_START facade) callback.

Definition addInventoryStopListener (facade : Facade) (callback : listener)
  : emitter_call listener :=
  AddListener (EVENT_INVENTORY_STOP facade) callback.

Definition addTriggerPressListener (facade : Facade) (callback : listener)
  : emitter_call listener :=
  AddListener (Some (CStr "onTriggerPress")) callback.

Definition addTriggerReleaseListener (facade : Facade) (callback : listener)
  : emitter_call listener :=
  AddListener (Some (CStr "onTriggerRelease")) callback.

Definition removeAllListeners (facade : Facade) : list (emitter_call listener) :=
  [RemoveAllListeners (EVENT_TAG_READ facade);
   RemoveAllListeners (EVENT_INVENTORY_START facade);
   RemoveAllListeners (EVENT_INVENTORY_STOP facade);
   RemoveAllListeners (Some (CStr "onTriggerPress"));
   RemoveAllListeners (Some (CStr "onTriggerRelease"))].

(** The five helpers that add a listener. *)
Definition listener_helpers : list (Facade -> listener -> emitter_call listener) :=
  [addTagReadListener; addInventoryStartListener; addInventoryStopListener;
   addTriggerPressListener; addTriggerReleaseListener].

End Listeners.

End ChainwayRFID.

(** ** RFIDExample.tsx: the tag list of the example screen *)

Module RFIDExample.
Import ChainwayRFID.

(** A JavaScript [Map<string, TagInfo>]: its entries in insertion order,
    one for each key. *)
Fixpoint Map_get (m : list (string * TagInfo)) (key : string)
  : option TagInfo :=
  match m with
  | [] => None
  | (k, v) :: m' => if bool_decide (k = key) then Some v else Map_get m' key
  end.

Definition Map_has (m : list (string * TagInfo)) (key : string) : bool :=
  match Map_get m key with Some _ => true | None => false end.

(** [set] replaces the value of a key the map has, where it stands, and
    puts a new key last. *)
Fixpoint Map_set (m : list (string * TagInfo)) (key : string)
    (value : TagInfo) : list (string * TagInfo) :=
  match m with
  | [] => [(key, value)]
  | (k, v) :: m' =>
      if bool_decide (k = key) then (k, value) :: m'
      else (k, v) :: Map_set m' key value
  end.

Definition Map_keys (m : list (string * TagInfo)) : list string := m.*1.

(** [Array.from(tags.values())], the data of the list. *)
Definition Map_values (m : list (string * TagInfo)) : list TagInfo := m.*2.

(** Every entry is stored under the EPC of its tag. *)
Definition keyed_by_epc (m : list (string * TagInfo)) : Prop :=
  Forall (fun e => epc (snd e) = fst e) m.

(** [tag.count = c]. *)
Definition set_count (tag : TagInfo) (c : string) : TagInfo :=
  mkTagInfo (epc tag) (tid tag) (user tag) (rssi tag) c.

(** [s || d] on strings: only the empty string is falsy. *)
Definition or_else (s d : string) : string :=
  if bool_decide (s = "") then d else s.

Section TagListener.
(** The builtins [parseInt], [+] on numbers and [String]. *)
Variable parseInt : string -> number.
Variable plus : number -> number -> number.
Variable String_ : number -> string.

(** The updater the tag listener passes to [setTags]: a tag whose EPC is
    in the list gets the count of its entry plus one; the tag is then
    stored under its EPC. *)
Definition onTagRead (tag : TagInfo) (prevTags : list (string * TagInfo))
  : list (string * TagInfo) :=
  let newTags := prevTags in
  let tag :=
    if Map_has prevTags (epc tag) then
      match Map_get prevTags (epc tag) with
      | Some existingTag =>
          set_count tag
            (String_ (plus (parseInt (or_else (count existingTag) "1"))
                           (of_Z 1)))
      | None => tag
      end
    else tag in
  Map_set newTags (epc tag) tag.

(** The list after the reads [reads], in the order they arrived, starting
    from [tags]. *)
Definition tags_after (reads : list TagInfo) (tags : list (string * TagInfo))
  : list (string * TagInfo) :=
  fold_left (fun prevTags tag => onTagRead tag prevTags) reads tags.

End TagListener.

(** Stand-ins for the three builtins on decimal integers, to run the
    listener on concrete reads. *)
Definition digit_of (c : Ascii.ascii) : option Z :=
  let n := Z.of_nat (Ascii.nat_of_ascii c) in
  if (48 <=? n) && (n <=? 57) then Some (n - 48) else None.

Fixpoint decimal_digits (acc : Z) (s : string) : Z :=
  match s with
  | EmptyString => acc
  | String c s' =>
      match digit_of c with
      | Some d => decimal_digits (acc * 10 + d) s'
      | None => acc
      end
  end.

Definition starts_with_digit (s : string) : bool :=
  match s with
  | String c _ => match digit_of c with Some _ => true | None => false end
  | EmptyString => false
  end.

Definition decimal_parseInt (s : string) : number :=
  match s with
  | String c s' =>
      if Ascii.eqb c (Ascii.ascii_of_nat 45) then
        if starts_with_digit s' then of_Z (- decimal_digits 0 s') else NaN
      else if starts_with_digit s then of_Z (decimal_digits 0 s) else NaN
  | EmptyString => NaN
  end.

Definition number_plus (x y : number) : number :=
  match x, y with
  | NaN, _ | _, NaN => NaN
  | Infinity a, Infinity b => if Bool.eqb a b then Infinity a else NaN
  | Infinity a, _ => Infinity a
  | _, Infinity b => Infinity b
  | Finite a, Finite b => Finite (a + b)
  end.

Definition integer_String (x : number) : string :=
  match x with
  | NaN => "NaN"
  | Infinity true => "-Infinity"
  | Infinity false => "Infinity"
  | Finite q => pretty (Qnum q / Z.pos (Qden q))
  end.

(** Integers a double holds exactly. *)
Definition safe_integer (n : Z) : Prop := - 2 ^ 53 < n < 2 ^ 53.

(** The reads of the EPC [key] among [reads]. *)
Definition reads_of (key : string) (reads : list TagInfo) : list TagInfo :=
  List.filter (fun tag => bool_decide (epc tag = key)) reads.

(** Two tags as the bridge reports them. *)
Definition tag_a : TagInfo :=
  mkTagInfo "E2000017221101441890" "E2003412" "" "-58.20" "1".
Definition tag_b : TagInfo := mkTagInfo "3000ABCD" "" "" "-60.00" "1".

End RFIDExample.

(** ** A simulated reader

    A stand-in for the vendor SDK, used to run the bridge on concrete
    inputs: a reader that may or may not be attached, remembers power and
    frequency once opened, and reads the tags in its field. *)

Module SimReader.

Record state := mkState {
  attached : bool;
  opened : bool;
  power : Z;
  frequency : Z;
  inventorying : bool;
  field : list UHFTAGInfo
}.

Definition with_opened (b : bool) (d : state) : state :=
  mkState (attached d) b (power d) (frequency d) (inventorying d) (field d).
Definition with_power (p : Z) (d : state) : state :=
  mkState (attached d) (opened d) p (frequency d) (inventorying d) (field d).
Definition with_frequency (m : Z) (d : state) : state :=
  mkState (attached d) (opened d) (power d) m (inventorying d) (field d).
Definition with_inventorying (b : bool) (d : state) : state :=
  mkState (attached d) (opened d) (power d) (frequency d) b (field d).

Definition on_tag (d : state) : jresult bool * state :=
  (Returned (opened d && bool_decide (field d ≠ [])), d).

#[global] Instance sim : IUHF state := {|
  Bank_RESERVED := 0;
  Bank_EPC := 1;
  Bank_TID := 2;
  Bank_USER := 3;
  sdk_getInstance d := (Returned (Some TheReader), d);
  sdk_init d :=
    if attached d then (Returned true, with_opened true d)
    else (Returned false, d);
  sdk_free d := (Returned (opened d), with_opened false d);
  sdk_getVersion d :=
    (Returned (if opened d then Some "SIM-1.0" else None), d);
  sdk_setPower d p :=
    if opened d && (0 <=? p) && (p <=? 30)
    then (Returned true, with_power p d)
    else (Returned false, d);
  sdk_getPower d := (Returned (power d), d);
  sdk_setFrequencyMode d m :=
    if opened d then (Returned true, with_frequency m d)
    else (Returned false, d);
  sdk_getFrequencyMode d := (Returned (frequency d), d);
  sdk_setInventoryCallback d := (Returned tt, d);
  sdk_startInventoryTag d :=
    if opened d && negb (inventorying d)
    then (Returned true, with_inventorying true d)
    else (Returned false, d);
  sdk_stopInventory d :=
    if inventorying d then (Returned true, with_inventorying false d)
    else (Returned false, d);
  sdk_inventorySingleTag d :=
    (Returned (if opened d then head (field d) else None), d);
  sdk_readData d _ _ _ _ :=
    (Returned (if opened d then head (field d) ≫= getUser else None), d);
  sdk_writeData d _ _ _ _ _ := on_tag d;
  sdk_writeDataToEpc d _ _ := on_tag d;
  sdk_setFilter d _ _ _ _ := (Returned (opened d), d);
  sdk_lockMem d _ _ := on_tag d;
  sdk_killTag d _ := on_tag d;
  sdk_isInventorying d := (Returned (inventorying d), d);
  sdk_setEPCMode d := (Returned (opened d), d);
  sdk_setEPCAndTIDMode d := (Returned (opened d), d)
|}.

Definition tag1 : UHFTAGInfo :=
  mkTag (Some "E2000017221101441890") (Some "E2003412") None (Some "-58.20") 1.

(** A read for which the SDK reports a signal strength and nothing else. *)
Definition blank_tag : UHFTAGInfo := mkTag None None None (Some "-71.50") 1.

(** A reader on the bench: attached, not yet opened, one tag in range. *)
Definition bench : state := mkState true false 0 0 false [tag1].

(** A handheld without the RFID module. *)
Definition detached : state := mkState false false 0 0 false [].

Definition emitter_ready : jresult (option RCTDeviceEventEmitter) :=
  Returned (Some TheEmitter).

(** [getJSModule] on a context whose JS instance is gone. *)
Definition instance_gone : Throwable :=
  mkThrowable IllegalStateException
    (Some "Tried to access a JS module before the React instance was fully set up").

Definition emitter_gone : jresult (option RCTDeviceEventEmitter) :=
  Thrown instance_gone.

(** The process just started on the bench reader. *)
Definition fresh : World state := Bridge.startup bench emitter_ready true.

(** The same after a successful [init]. *)
Definition ready_world : World state :=
  mkWorld (with_opened true bench) (Some TheReader) false emitter_ready true.

(** An opened reader with no tag in range. *)
Definition empty_room : World state :=
  mkWorld (mkState true true 0 0 false []) (Some TheReader) false
          emitter_ready true.

(** An opened reader whose JS instance is gone. *)
Definition torn_down : World state :=
  mkWorld (with_opened true bench) (Some TheReader) false emitter_gone true.

(** The inventory running, the JS instance gone. *)
Definition inventory_torn_down : World state :=
  mkWorld (with_inventorying true (with_opened true bench))
          (Some TheReader) true emitter_gone true.

(** The inventory running, the JS instance there. *)
Definition inventory_running : World state :=
  mkWorld (with_inventorying true (with_opened true bench))
          (Some TheReader) true emitter_ready true.

(** The activity before its React context exists. *)
Definition no_context : World state := Bridge.startup bench emitter_gone false.

(** The facade the client gets over the simulated reader. *)
Definition facade : ChainwayRFID.Facade :=
  ChainwayRFID.mkFacade
    (Some (CInt 0)) (Some (CInt 1)) (Some (CInt 2)) (Some (CInt 3))
    (Some (CInt 0x01)) (Some (CInt 0x02)) (Some (CInt 0x04))
    (Some (CInt 0x08)) (Some (CInt 0x16)) (Some (CInt 0x32))
    (Some (CStr "onTagRead")) (Some (CStr "onInventoryStart"))
    (Some (CStr "onInventoryStop")).

End SimReader.

(** ** The vocabulary of the contract *)

Module Contract.
Import ChainwayRfidModule Bridge.

Definition is_init (r : request) : bool :=
  match r with R_init => true | _ => false end.

Definition is_HwCall (a : action) : bool :=
  match a with HwCall _ => true | _ => false end.

Definition is_Emit (a : action) : bool :=
  match a with Emit _ _ => true | _ => false end.

Definition is_settlement (a : action) : bool :=
  match a with Resolve _ | Reject _ _ => true | _ => false end.

(** The SDK calls, the emitted events and the promise settlements of a
    trace. *)
Definition hardware_calls (t : list action) : list action :=
  List.filter is_HwCall t.
Definition emissions (t : list action) : list action :=
  List.filter is_Emit t.
Definition settlements (t : list action) : list action :=
  List.filter is_settlement t.

Definition NOT_INITIALIZED : action :=
  Reject "NOT_INITIALIZED" "RFID reader not initialized".

(** A successful [startInventory] and a successful [stopInventory]. *)
Definition start_trace : list action :=
  [HwCall SetInventoryCallback; HwCall StartInventoryTag;
   Emit EVENT_INVENTORY_START None; Resolve (VBool true)].

Definition stop_trace : list action :=
  [HwCall StopInventory; Emit EVENT_INVENTORY_STOP None;
   Resolve (VBool true)].

(** Every error code the adapter rejects with. *)
Definition named_codes : list string :=
  ["NOT_INITIALIZED"; "CONFIG_ERROR"; "INIT_FAILED"; "INIT_ERROR";
   "FREE_ERROR"; "VERSION_ERROR"; "POWER_ERROR"; "FREQUENCY_ERROR";
   "START_ERROR"; "STOP_ERROR"; "NO_TAG"; "READ_ERROR"; "WRITE_ERROR";
   "FILTER_ERROR"; "LOCK_ERROR"; "KILL_ERROR"; "STATUS_ERROR";
   "MODE_ERROR"].

(** The codes [init] rejects with. *)
Definition init_codes : list string :=
  ["INIT_FAILED"; "CONFIG_ERROR"; "INIT_ERROR"].

(** The code of the [catch (Exception e)] clause of each method. *)
Definition exception_code (r : request) : string :=
  match r with
  | R_init => "INIT_ERROR"
  | R_free => "FREE_ERROR"
  | R_getVersion => "VERSION_ERROR"
  | R_setPower _ | R_getPower => "POWER_ERROR"
  | R_setFrequencyMode _ | R_getFrequencyMode => "FREQUENCY_ERROR"
  | R_startInventory => "START_ERROR"
  | R_stopInventory => "STOP_ERROR"
  | R_inventorySingleTag | R_readData _ _ _ _ => "READ_ERROR"
  | R_writeData _ _ _ _ _ | R_writeEPC _ _ => "WRITE_ERROR"
  | R_setFilter _ _ _ _ => "FILTER_ERROR"
  | R_lockTag _ _ => "LOCK_ERROR"
  | R_killTag _ => "KILL_ERROR"
  | R_isInventorying => "STATUS_ERROR"
  | R_setEPCMode | R_setEPCAndTIDMode => "MODE_ERROR"
  end.

(** The code a raised exception is reported under: [init] has a clause
    of its own for [ConfigurationException]. *)
Definition reported_code (r : request) (e : Throwable) : string :=
  if is_init r && instanceOf_ConfigurationException e
  then "CONFIG_ERROR" else exception_code r.

(** How each method settles its promise when its hardware call returns
    the failure sentinel. *)
Definition sentinel_outcome (r : request) : action :=
  match r with
  | R_init => Reject "INIT_FAILED" "Failed to initialize RFID reader"
  | R_getVersion => Reject "VERSION_ERROR" "Failed to get version"
  | R_startInventory => Reject "START_ERROR" "Failed to start inventory"
  | R_stopInventory => Reject "STOP_ERROR" "Failed to stop inventory"
  | R_inventorySingleTag => Reject "NO_TAG" "No tag found"
  | R_readData _ _ _ _ => Reject "READ_ERROR" "Failed to read data from tag"
  | _ => Resolve (VBool false)
  end.

Definition is_false (r : jresult bool) : bool :=
  match r with Returned false => true | _ => false end.

Definition is_null {A} (r : jresult (option A)) : bool :=
  match r with Returned None => true | _ => false end.

(** The events of the adapter, as opposed to those of the trigger keys. *)
Definition is_adapter_event (eventName : string) : bool :=
  bool_decide (eventName = EVENT_TAG_READ)
  || bool_decide (eventName = EVENT_INVENTORY_START)
  || bool_decide (eventName = EVENT_INVENTORY_STOP).

Definition is_trigger_event (eventName : string) : bool :=
  bool_decide (eventName = "onTriggerPress")
  || bool_decide (eventName = "onTriggerRelease").

(** The keys of the frequency-region constants. *)
Definition frequency_regions : list string :=
  ["FREQ_CHINA_840"; "FREQ_CHINA_920"; "FREQ_EUROPE"; "FREQ_USA";
   "FREQ_KOREA"; "FREQ_JAPAN"].

(** The ways into the adapter: a method called from JavaScript, or the
    inventory callback called by the SDK. *)
Inductive entry :=
| Method (r : request)
| InventoryCallback (uhftagInfo : option UHFTAGInfo).

Section WithSDK.
Context {hw : Type} `{!IUHF hw}.

Definition enter (p : entry) : M hw unit :=
  match p with
  | Method r => invoke r
  | InventoryCallback uhftagInfo =>
      IUHFInventoryCallback_callback uhftagInfo
  end.

(** The hardware call of the method, made on device [d], returns the
    failure sentinel without throwing: false for a boolean, null for a
    value.  [getPower] and [getFrequencyMode] return an int and have
    none; [init] and [startInventory] reach their call through
    [getInstance] and [setInventoryCallback]. *)
Definition returns_sentinel (r : request) (d : hw) : bool :=
  match r with
  | R_init =>
      match sdk_getInstance d with
      | (Returned (Some _), d1) => is_false (fst (sdk_init d1))
      | _ => false
      end
  | R_free => is_false (fst (sdk_free d))
  | R_getVersion => is_null (fst (sdk_getVersion d))
  | R_setPower power => is_false (fst (sdk_setPower d power))
  | R_getPower => false
  | R_setFrequencyMode mode => is_false (fst (sdk_setFrequencyMode d mode))
  | R_getFrequencyMode => false
  | R_startInventory =>
      match sdk_setInventoryCallback d with
      | (Returned _, d1) => is_false (fst (sdk_startInventoryTag d1))
      | _ => false
      end
  | R_stopInventory => is_false (fst (sdk_stopInventory d))
  | R_inventorySingleTag => is_null (fst (sdk_inventorySingleTag d))
  | R_readData accessPwd bank ptr cnt =>
      is_null (fst (sdk_readData d accessPwd bank ptr cnt))
  | R_writeData accessPwd bank ptr cnt data =>
      is_false (fst (sdk_writeData d accessPwd bank ptr cnt data))
  | R_writeEPC accessPwd epcData =>
      is_false (fst (sdk_writeDataToEpc d accessPwd epcData))
  | R_setFilter bank ptr cnt data =>
      is_false (fst (sdk_setFilter d bank ptr cnt data))
  | R_lockTag accessPwd lockCode =>
      is_false (fst (sdk_lockMem d accessPwd lockCode))
  | R_killTag killPwd => is_false (fst (sdk_killTag d killPwd))
  | R_isInventorying => is_false (fst (sdk_isInventorying d))
  | R_setEPCMode => is_false (fst (sdk_setEPCMode d))
  | R_setEPCAndTIDMode => is_false (fst (sdk_setEPCAndTIDMode d))
  end.

(** The method is ready to make its hardware call: [init] always is,
    the others once the handle is set. *)
Definition ready (r : request) (w : World hw) : bool :=
  is_init r || match rfidReader w with Some _ => true | None => false end.

(** Some [init] among the stimuli [ss], served from [w0], resolved
    with true. *)
Definition init_succeeded (ss : list stimulus) (w0 : World hw) : Prop :=
  exists pre post,
    ss = pre ++ JsCall R_init :: post /\
    result_of (run pre w0) = Returned tt /\
    In (Resolve (VBool true)) (trace_of (init (world_of (run pre w0)))).

(** The SDK remembers the frequency mode it accepted. *)
Definition sdk_keeps_frequency : Prop :=
  forall (d d1 : hw) (mode : Z),
    sdk_setFrequencyMode d mode = (Returned true, d1) ->
    fst (sdk_getFrequencyMode d1) = Returned mode.

End WithSDK.

End Contract.

(** ** Further vocabulary: what a call may cost and cause *)

Module Behaviour.
Import ChainwayRfidModule Bridge Contract.

(** The number of SDK calls a method makes at most: [init] goes through
    [getInstance], [startInventory] through [setInventoryCallback]. *)
Definition call_budget (r : request) : nat :=
  match r with
  | R_init | R_startInventory => 2%nat
  | _ => 1%nat
  end.

Definition is_JsCall_init (s : stimulus) : bool :=
  match s with JsCall R_init => true | _ => false end.

Definition is_JsCall_startInventory (s : stimulus) : bool :=
  match s with JsCall R_startInventory => true | _ => false end.

(** The event names the bridge emits without a payload. *)
Definition bare_events : list string :=
  [EVENT_INVENTORY_START; EVENT_INVENTORY_STOP;
   "onTriggerPress"; "onTriggerRelease"].

Section WithAdapter.
Context {hw : Type} `{!IUHF hw}.

(** The registry of native modules with the adapter in it, under the name
    [getName] gives and with the constants [getConstants] gives. *)
Definition NativeModules_with_adapter : gmap string ChainwayRFID.js_module :=
  {[ MODULE_NAME := ChainwayRFID.JsObject getConstants ]}.

End WithAdapter.

End Behaviour.

(** ** What the bridge takes from the SDK *)

Module Environment.
Import ChainwayRfidModule Bridge Contract.

(** A field of a tag record that carries no data: null, or empty. *)
Definition no_data (field : option string) : Prop :=
  field = None \/ field = Some "".

Section OnDevice.
Context {hw : Type} `{!IUHF hw}.

(** The state the SDK call [c] leaves the device in. *)
Definition sdk_after (c : sdk_call) (d : hw) : hw :=
  match c with
  | GetInstance => snd (sdk_getInstance d)
  | Init => snd (sdk_init d)
  | Free => snd (sdk_free d)
  | GetVersion => snd (sdk_getVersion d)
  | SetPower power => snd (sdk_setPower d power)
  | GetPower => snd (sdk_getPower d)
  | SetFrequencyMode mode => snd (sdk_setFrequencyMode d mode)
  | GetFrequencyMode => snd (sdk_getFrequencyMode d)
  | SetInventoryCallback => snd (sdk_setInventoryCallback d)
  | StartInventoryTag => snd (sdk_startInventoryTag d)
  | StopInventory => snd (sdk_stopInventory d)
  | InventorySingleTag => snd (sdk_inventorySingleTag d)
  | ReadData accessPwd bank ptr cnt => snd (sdk_readData d accessPwd bank ptr cnt)
  | WriteData accessPwd bank ptr cnt data =>
      snd (sdk_writeData d accessPwd bank ptr cnt data)
  | WriteDataToEpc accessPwd epcData => snd (sdk_writeDataToEpc d accessPwd epcData)
  | SetFilter bank ptr cnt data => snd (sdk_setFilter d bank ptr cnt data)
  | LockMem accessPwd lockCode => snd (sdk_lockMem d accessPwd lockCode)
  | KillTag killPwd => snd (sdk_killTag d killPwd)
  | IsInventorying => snd (sdk_isInventorying d)
  | SetEPCMode => snd (sdk_setEPCMode d)
  | SetEPCAndTIDMode => snd (sdk_setEPCAndTIDMode d)
  end.

Definition is_true (r : jresult bool) : bool :=
  match r with Returned true => true | _ => false end.

(** The call [c] on device [d] is an [init] that returns true. *)
Definition sdk_opens (c : sdk_call) (d : hw) : bool :=
  match c with
  | Init => is_true (fst (sdk_init d))
  | _ => false
  end.

(** An SDK that does nothing with a reader it has not opened: [closed]
    holds of the device until [init] returns true, and a closed reader
    neither starts nor stops an inventory. *)
Definition sdk_needs_init (closed : hw -> Prop) : Prop :=
  (forall c d, closed d -> closed (sdk_after c d) \/ sdk_opens c d = true) /\
  (forall d, closed d -> is_true (fst (sdk_startInventoryTag d)) = false) /\
  (forall d, closed d -> is_true (fst (sdk_stopInventory d)) = false).

(** What the active inventory mode means for a record the SDK delivers
    while the device is in state [d]: a bank the mode excludes comes
    without data. *)
Definition sdk_honours_mode (excludes_tid excludes_user : hw -> bool)
    (d : hw) (t : UHFTAGInfo) : Prop :=
  (excludes_tid d = true -> no_data (getTid t)) /\
  (excludes_user d = true -> no_data (getUser t)).

End OnDevice.

(** The simulated reader before it is opened. *)
Definition sim_closed (d : SimReader.state) : Prop :=
  SimReader.opened d = false /\ SimReader.inventorying d = false.

End Environment.

(** A reader whose every call throws the same throwable. *)
Module FaultyReader.

#[global] Instance faulty : IUHF Throwable := {|
  Bank_RESERVED := 0;
  Bank_EPC := 1;
  Bank_TID := 2;
  Bank_USER := 3;
  sdk_getInstance d := (Thrown d, d);
  sdk_init d := (Thrown d, d);
  sdk_free d := (Thrown d, d);
  sdk_getVersion d := (Thrown d, d);
  sdk_setPower d _ := (Thrown d, d);
  sdk_getPower d := (Thrown d, d);
  sdk_setFrequencyMode d _ := (Thrown d, d);
  sdk_getFrequencyMode d := (Thrown d, d);
  sdk_setInventoryCallback d := (Thrown d, d);
  sdk_startInventoryTag d := (Thrown d, d);
  sdk_stopInventory d := (Thrown d, d);
  sdk_inventorySingleTag d := (Thrown d, d);
  sdk_readData d _ _ _ _ := (Thrown d, d);
  sdk_writeData d _ _ _ _ _ := (Thrown d, d);
  sdk_writeDataToEpc d _ _ := (Thrown d, d);
  sdk_setFilter d _ _ _ _ := (Thrown d, d);
  sdk_lockMem d _ _ := (Thrown d, d);
  sdk_killTag d _ := (Thrown d, d);
  sdk_isInventorying d := (Thrown d, d);
  sdk_setEPCMode d := (Thrown d, d);
  sdk_setEPCAndTIDMode d := (Thrown d, d)
|}.

(** The SDK without its configuration. *)
Definition unconfigured : Throwable :=
  mkThrowable ConfigurationException (Some "uhf module not configured").

(** The serial port of the reader out of order. *)
Definition port_failure : Throwable :=
  mkThrowable RuntimeException (Some "serial port failure").

End FaultyReader.

Import ChainwayRfidModule Bridge Contract Behaviour Environment.

(** * Properties *)

Ltac unfold_methods :=
  unfold enter, invoke, init, free, getVersion, setPower, getPower,
    setFrequencyMode, getFrequencyMode, startInventory, stopInventory,
    inventorySingleTag, readData, writeData, writeEPC, setFilter, lockTag,
    killTag, isInventorying, setEPCMode, setEPCAndTIDMode,
    IUHFInventoryCallback_callback, sendTagReadEvent.

Ltac unfold_monad :=
  unfold try_catch, unless_null, bind, read_rfidReader, write_rfidReader,
    register_callback, call, resolve, reject, perform, throw, ret,
    sendEvent, catch_Exception, catch_ConfigurationException,
    result_of, world_of, trace_of.

(** Case analysis on whatever the SDK or the runtime answers. *)
Ltac answer :=
  match goal with
  | |- context [match ?x with _ => _ end] =>
      lazymatch x with
      | context [match _ with _ => _ end] => fail
      | _ => destruct x eqn:?
      end
  | |- context [if ?x then _ else _] =>
      lazymatch x with
      | context [match _ with _ => _ end] => fail
      | _ => destruct x eqn:?
      end
  end.

(** The same on what a hypothesis says the answer was. *)
Ltac recall :=
  match goal with
  | H : context [match ?x with _ => _ end] |- _ =>
      lazymatch x with
      | context [match _ with _ => _ end] => fail
      | _ => destruct x eqn:?
      end
  end.

Ltac run_method := unfold_methods; unfold_monad; cbn.

Section Guard.
Context {hw : Type} `{!IUHF hw}.

(** The null guard: the method rejects and does nothing else. *)
Lemma null_guard (r : request) (w : World hw) :
  is_init r = false ->
  rfidReader w = None ->
  invoke r w = (Returned tt, w, [NOT_INITIALIZED]).
Proof.
  intros Hr Hnull.
  destruct r; try discriminate Hr;
    unfold_methods; unfold_monad; rewrite Hnull; reflexivity.
Qed.

(** C1. Every operation other than [init], invoked while the reader
    handle is null, rejects with NOT_INITIALIZED and does nothing else:
    no call of the SDK, no event, the state unchanged. *)
Theorem uninitialized_rejects (r : request) (w : World hw) :
  is_init r = false ->
  rfidReader w = None ->
  invoke r w = (Returned tt, w, [NOT_INITIALIZED]) /\
  hardware_calls (trace_of (invoke r w)) = [].
Proof.
  intros Hr Hnull.
  pose proof (null_guard r w Hr Hnull) as E.
  split; [exact E | rewrite E; reflexivity].
Qed.

End Guard.

Lemma uninitialized_rejects_witness :
  is_init (R_setPower 26) = false /\
  rfidReader SimReader.fresh = None /\
  invoke (R_setPower 26) SimReader.fresh
    = (Returned tt, SimReader.fresh, [NOT_INITIALIZED]) /\
  hardware_calls (trace_of (invoke (R_setPower 26) SimReader.fresh)) = [].
Proof.
  split; [reflexivity | split; [reflexivity |]].
  apply (uninitialized_rejects (R_setPower 26) SimReader.fresh); reflexivity.
Defined.

(** The simulated reader behaves as announced: [init] opens it. *)
Example init_on_the_bench :
  init SimReader.fresh
  = (Returned tt, SimReader.ready_world,
     [HwCall GetInstance; HwCall Init; Resolve (VBool true)]).
Proof. reflexivity. Qed.

Section Sentinel.
Context {hw : Type} `{!IUHF hw}.

(** C3 (amended). When the hardware call of a method returns the failure
    sentinel without throwing, [init], [startInventory], [stopInventory],
    [getVersion], [readData] and [inventorySingleTag] reject with
    INIT_FAILED, START_ERROR, STOP_ERROR, VERSION_ERROR, READ_ERROR and
    NO_TAG; every other boolean method resolves its promise with the
    false it received. *)
Theorem sentinel_settlement (r : request) (w : World hw) :
  ready r w = true ->
  returns_sentinel r (device w) = true ->
  result_of (invoke r w) = Returned tt /\
  settlements (trace_of (invoke r w)) = [sentinel_outcome r] /\
  last (trace_of (invoke r w)) = Some (sentinel_outcome r).
Proof.
  unfold ready, returns_sentinel, is_false, is_null.
  destruct r; cbn [is_init orb]; intros Hready Hsentinel;
    run_method;
    repeat (first [answer | recall]; cbn in *; try discriminate);
    repeat split; reflexivity.
Qed.

End Sentinel.

Lemma sentinel_settlement_witness :
  ready R_init SimReader.fresh = true /\
  returns_sentinel R_init SimReader.detached = true /\
  result_of (invoke R_init (startup SimReader.detached SimReader.emitter_ready true))
    = Returned tt /\
  settlements
    (trace_of (invoke R_init (startup SimReader.detached SimReader.emitter_ready true)))
    = [Reject "INIT_FAILED" "Failed to initialize RFID reader"] /\
  last (trace_of (invoke R_init (startup SimReader.detached SimReader.emitter_ready true)))
    = Some (Reject "INIT_FAILED" "Failed to initialize RFID reader").
Proof.
  split; [reflexivity | split; [reflexivity |]].
  apply (sentinel_settlement R_init
           (startup SimReader.detached SimReader.emitter_ready true));
    reflexivity.
Defined.

(** C3, as stated, fails: with no tag in range the SDK answers false to
    a write of the EPC, and [writeEPC] resolves the promise with that
    false instead of rejecting with WRITE_ERROR. *)
Lemma sentinel_false_is_resolved :
  ready (R_writeEPC "00000000" "E2000017221101441890") SimReader.empty_room
  = true /\
  returns_sentinel (R_writeEPC "00000000" "E2000017221101441890")
    (device SimReader.empty_room) = true /\
  invoke (R_writeEPC "00000000" "E2000017221101441890") SimReader.empty_room
  = (Returned tt, SimReader.empty_room,
     [HwCall (WriteDataToEpc "00000000" "E2000017221101441890");
      Resolve (VBool false)]) /\
  settlements
    (trace_of (invoke (R_writeEPC "00000000" "E2000017221101441890")
                 SimReader.empty_room))
  = [Resolve (VBool false)].
Proof. repeat split. Qed.

Section Inventory.
Context {hw : Type} `{!IUHF hw}.

(** [startInventory] either runs to success, or emits nothing and does
    not resolve. *)
Lemma startInventory_cases (w : World hw) :
  (trace_of (startInventory w) = start_trace /\
   inventoryCallback (world_of (startInventory w)) = true) \/
  (emissions (trace_of (startInventory w)) = [] /\
   forall v, ~ In (Resolve v) (trace_of (startInventory w))).
Proof.
  run_method.
  repeat (answer; cbn);
    first [ left; split; reflexivity
          | right; split; [reflexivity | intros v Hv; cbn in Hv; intuition discriminate] ].
Qed.

Lemma stopInventory_cases (w : World hw) :
  trace_of (stopInventory w) = stop_trace \/
  (emissions (trace_of (stopInventory w)) = [] /\
   forall v, ~ In (Resolve v) (trace_of (stopInventory w))).
Proof.
  run_method.
  repeat (answer; cbn);
    first [ left; reflexivity
          | right; split; [reflexivity | intros v Hv; cbn in Hv; intuition discriminate] ].
Qed.

(** C4. Whenever [startInventory] succeeds (handle set, the SDK takes the
    callback and starts the inventory, the emitter is there) it registers
    the inventory callback with the SDK, starts the inventory and emits
    onInventoryStart once, in this order, before resolving; whenever
    [stopInventory] succeeds it stops the inventory and emits
    onInventoryStop once before resolving.  A call that resolves has no
    other trace than these, and a call that rejects has emitted no
    event. *)
Theorem inventory_events (w : World hw) :
  (forall inst em d1 d2,
     rfidReader w = Some inst ->
     jsModule w = Returned (Some em) ->
     sdk_setInventoryCallback (device w) = (Returned tt, d1) ->
     sdk_startInventoryTag d1 = (Returned true, d2) ->
     startInventory w
     = (Returned tt,
        mkWorld d2 (Some inst) true (Returned (Some em)) (currentReactContext w),
        start_trace)) /\
  (forall inst em d1,
     rfidReader w = Some inst ->
     jsModule w = Returned (Some em) ->
     sdk_stopInventory (device w) = (Returned true, d1) ->
     stopInventory w
     = (Returned tt,
        mkWorld d1 (Some inst) (inventoryCallback w) (Returned (Some em))
                (currentReactContext w),
        stop_trace)) /\
  ((exists v, In (Resolve v) (trace_of (startInventory w))) ->
     trace_of (startInventory w) = start_trace /\
     inventoryCallback (world_of (startInventory w)) = true) /\
  ((exists v, In (Resolve v) (trace_of (stopInventory w))) ->
     trace_of (stopInventory w) = stop_trace) /\
  ((exists code message, In (Reject code message) (trace_of (startInventory w))) ->
     emissions (trace_of (startInventory w)) = []) /\
  ((exists code message, In (Reject code message) (trace_of (stopInventory w))) ->
     emissions (trace_of (stopInventory w)) = []).
Proof.
  split; [| split; [| split; [| split; [| split]]]].
  - intros inst em d1 d2 Hset Hjs Hcb Hstart.
    run_method. rewrite Hset. cbn. rewrite Hcb. cbn. rewrite Hstart. cbn.
    rewrite Hjs. cbn. rewrite ?Hset, ?Hjs. reflexivity.
  - intros inst em d1 Hset Hjs Hstop.
    run_method. rewrite Hset. cbn. rewrite Hstop. cbn.
    rewrite Hjs. cbn. rewrite ?Hset, ?Hjs. reflexivity.
  - intros [v Hv].
    destruct (startInventory_cases w) as [Hok | [_ Hn]]; [exact Hok |].
    exfalso. exact (Hn v Hv).
  - intros [v Hv].
    destruct (stopInventory_cases w) as [Hok | [_ Hn]]; [exact Hok |].
    exfalso. exact (Hn v Hv).
  - intros [code [message Hr]].
    destruct (startInventory_cases w) as [[Hok _] | [He _]]; [| exact He].
    rewrite Hok in Hr. cbn in Hr. intuition discriminate.
  - intros [code [message Hr]].
    destruct (stopInventory_cases w) as [Hok | [He _]]; [| exact He].
    rewrite Hok in Hr. cbn in Hr. intuition discriminate.
Qed.

End Inventory.

Lemma inventory_events_witness :
  startInventory SimReader.ready_world
  = (Returned tt, SimReader.inventory_running, start_trace) /\
  stopInventory SimReader.inventory_running
  = (Returned tt,
     mkWorld (SimReader.with_opened true SimReader.bench) (Some TheReader)
             true SimReader.emitter_ready true,
     stop_trace).
Proof.
  split.
  - apply (proj1 (inventory_events SimReader.ready_world)
             TheReader TheEmitter
             (SimReader.with_opened true SimReader.bench)
             (SimReader.with_inventorying true
                (SimReader.with_opened true SimReader.bench)));
      reflexivity.
  - apply (proj1 (proj2 (inventory_events SimReader.inventory_running))
             TheReader TheEmitter
             (SimReader.with_opened true SimReader.bench));
      reflexivity.
Defined.

(** A trace with a single raise names it. *)
Ltac the_raise :=
  repeat match goal with
  | H : In (Raise _) _ |- _ => cbn in H
  | H : _ \/ _ |- _ => destruct H
  | H : False |- _ => destruct H
  | H : HwCall _ = Raise _ |- _ => discriminate H
  | H : Resolve _ = Raise _ |- _ => discriminate H
  | H : Reject _ _ = Raise _ |- _ => discriminate H
  | H : Emit _ _ = Raise _ |- _ => discriminate H
  | H : Raise _ = Raise _ |- _ => injection H as H; subst
  end.

Ltac the_settlement :=
  repeat match goal with
  | H : In (Resolve _) _ |- _ => cbn in H
  | H : In (Reject _ _) _ |- _ => cbn in H
  | H : _ \/ _ |- _ => destruct H
  | H : False |- _ => destruct H
  | H : _ = Resolve _ |- _ => first [discriminate H | injection H as <-]
  | H : _ = Reject _ _ |- _ => first [discriminate H | injection H as <- <-]
  end.

Section Init.
Context {hw : Type} `{!IUHF hw}.

(** C7 (amended). [init] resolves with true on success, that is when the
    SDK's [init] returns true.  When it fails it rejects with one of
    INIT_FAILED, CONFIG_ERROR and INIT_ERROR and with no other code: a
    false result of the SDK's [init] yields INIT_FAILED, a
    [ConfigurationException] yields CONFIG_ERROR, any other [Exception]
    yields INIT_ERROR; a [java.lang.Error] is not caught and leaves the
    promise unsettled. *)
Theorem init_outcomes (w : World hw) :
  (forall inst d1 d2,
     sdk_getInstance (device w) = (Returned (Some inst), d1) ->
     sdk_init d1 = (Returned true, d2) ->
     init w
     = (Returned tt,
        mkWorld d2 (Some inst) (inventoryCallback w) (jsModule w)
                (currentReactContext w),
        [HwCall GetInstance; HwCall Init; Resolve (VBool true)])) /\
  (forall inst d1 d2,
     sdk_getInstance (device w) = (Returned (Some inst), d1) ->
     sdk_init d1 = (Returned false, d2) ->
     init w
     = (Returned tt,
        mkWorld d2 (Some inst) (inventoryCallback w) (jsModule w)
                (currentReactContext w),
        [HwCall GetInstance; HwCall Init;
         Reject "INIT_FAILED" "Failed to initialize RFID reader"])) /\
  (forall e,
     In (Raise e) (trace_of (init w)) ->
     instanceOf_ConfigurationException e = true ->
     result_of (init w) = Returned tt /\
     settlements (trace_of (init w))
     = [Reject "CONFIG_ERROR" (concat_message "Configuration error: " e)]) /\
  (forall e,
     In (Raise e) (trace_of (init w)) ->
     instanceOf_ConfigurationException e = false ->
     instanceOf_Exception e = true ->
     result_of (init w) = Returned tt /\
     settlements (trace_of (init w))
     = [Reject "INIT_ERROR"
          (concat_message "Error initializing RFID reader: " e)]) /\
  (forall v, In (Resolve v) (trace_of (init w)) -> v = VBool true) /\
  (forall code message,
     In (Reject code message) (trace_of (init w)) -> In code init_codes) /\
  (settlements (trace_of (init w)) = [Resolve (VBool true)] \/
   (exists code message,
      settlements (trace_of (init w)) = [Reject code message] /\
      In code init_codes) \/
   (exists e,
      result_of (init w) = Thrown e /\
      instanceOf_Exception e = false /\
      settlements (trace_of (init w)) = [])).
Proof.
  split; [| split].
  - intros inst d1 d2 Hget Hinit.
    run_method. rewrite Hget. cbn. rewrite Hinit. reflexivity.
  - intros inst d1 d2 Hget Hinit.
    run_method. rewrite Hget. cbn. rewrite Hinit. reflexivity.
  - run_method. repeat (answer; cbn).
    all: split; [| split; [| split; [| split]]].
    all: try (intros raised Hraised; the_raise; cbn; intros;
              first [congruence | split; [reflexivity | congruence]]).
    all: try (intros v Hv; the_settlement; reflexivity).
    all: try (intros code message Hr; the_settlement; cbn; tauto).
    all: try (left; reflexivity).
    all: try (right; left; eexists _, _; split; [reflexivity | cbn; tauto]).
    all: try (right; right; eexists; repeat split; eauto).
Qed.

End Init.

Lemma init_outcomes_witness :
  init SimReader.fresh
  = (Returned tt, SimReader.ready_world,
     [HwCall GetInstance; HwCall Init; Resolve (VBool true)]) /\
  init (startup SimReader.detached SimReader.emitter_ready true)
  = (Returned tt,
     mkWorld SimReader.detached (Some TheReader) false
             SimReader.emitter_ready true,
     [HwCall GetInstance; HwCall Init;
      Reject "INIT_FAILED" "Failed to initialize RFID reader"]) /\
  (result_of
     (init (startup FaultyReader.unconfigured SimReader.emitter_ready true))
   = Returned tt /\
   settlements
     (trace_of
        (init (startup FaultyReader.unconfigured SimReader.emitter_ready true)))
   = [Reject "CONFIG_ERROR"
        (concat_message "Configuration error: " FaultyReader.unconfigured)]) /\
  (result_of
     (init (startup FaultyReader.port_failure SimReader.emitter_ready true))
   = Returned tt /\
   settlements
     (trace_of
        (init (startup FaultyReader.port_failure SimReader.emitter_ready true)))
   = [Reject "INIT_ERROR"
        (concat_message "Error initializing RFID reader: "
           FaultyReader.port_failure)]).
Proof.
  split; [| split; [| split]].
  - apply (proj1 (init_outcomes SimReader.fresh) TheReader SimReader.bench);
      reflexivity.
  - apply (proj1 (proj2 (init_outcomes
                           (startup SimReader.detached SimReader.emitter_ready true)))
             TheReader SimReader.detached);
      reflexivity.
  - apply (proj1 (proj2 (proj2 (init_outcomes
                                  (startup FaultyReader.unconfigured
                                     SimReader.emitter_ready true))))
             FaultyReader.unconfigured).
    + vm_compute. right. left. reflexivity.
    + reflexivity.
  - apply (proj1 (proj2 (proj2 (proj2 (init_outcomes
                                         (startup FaultyReader.port_failure
                                            SimReader.emitter_ready true)))))
             FaultyReader.port_failure).
    + vm_compute. right. left. reflexivity.
    + reflexivity.
    + reflexivity.
Defined.

(** C7, as stated, fails: on a handheld without the RFID module the SDK
    answers false, and [init] rejects with INIT_FAILED, a code outside
    NOT_INITIALIZED, CONFIG_ERROR and INIT_ERROR. *)
Lemma init_failed_code :
  init (startup SimReader.detached SimReader.emitter_ready true)
  = (Returned tt,
     mkWorld SimReader.detached (Some TheReader) false
             SimReader.emitter_ready true,
     [HwCall GetInstance; HwCall Init;
      Reject "INIT_FAILED" "Failed to initialize RFID reader"]) /\
  ~ In "INIT_FAILED" ["NOT_INITIALIZED"; "CONFIG_ERROR"; "INIT_ERROR"].
Proof.
  split; [reflexivity |].
  cbn. intuition discriminate.
Qed.

Section Faults.
Context {hw : Type} `{!IUHF hw}.

(** C9 (amended). In every method called through its promise, an
    [Exception] raised by the SDK or by the event emitter is caught: the
    call returns normally and the promise is rejected, as its last act
    and only settlement, with the named code of the method (CONFIG_ERROR
    for a [ConfigurationException] in [init]).  What a method lets
    through is never an [Exception]. *)
Theorem exceptions_become_rejections (r : request) (w : World hw) :
  (forall e,
     In (Raise e) (trace_of (invoke r w)) ->
     instanceOf_Exception e = true ->
     result_of (invoke r w) = Returned tt /\
     In (reported_code r e) named_codes /\
     exists message,
       settlements (trace_of (invoke r w))
       = [Reject (reported_code r e) message] /\
       last (trace_of (invoke r w))
       = Some (Reject (reported_code r e) message)) /\
  (forall e,
     result_of (invoke r w) = Thrown e -> instanceOf_Exception e = false).
Proof.
  destruct r; run_method; repeat (answer; cbn); split.
  all: try (intros raised Hraised; discriminate Hraised).
  all: try (intros raised Hraised; injection Hraised as ->; assumption).
  all: intros raised Hraised Hexception; the_raise.
  all: try congruence.
  all: unfold reported_code; cbn;
    repeat match goal with
    | H : instanceOf_ConfigurationException _ = _ |- _ => rewrite H
    end.
  all: split; [reflexivity | split; [cbn; tauto |]].
  all: eexists; split; reflexivity.
Qed.

End Faults.

Lemma exceptions_become_rejections_witness :
  result_of (invoke R_startInventory SimReader.torn_down) = Returned tt /\
  In "START_ERROR" named_codes /\
  exists message,
    settlements (trace_of (invoke R_startInventory SimReader.torn_down))
    = [Reject "START_ERROR" message] /\
    last (trace_of (invoke R_startInventory SimReader.torn_down))
    = Some (Reject "START_ERROR" message).
Proof.
  apply (proj1 (exceptions_become_rejections R_startInventory SimReader.torn_down)
           SimReader.instance_gone).
  - vm_compute. do 2 right. left. reflexivity.
  - reflexivity.
Defined.

(** C9, as stated, fails on the inventory callback: with the inventory
    running and the JS instance gone, the exception [getJSModule] raises
    while the tag is being relayed leaves the callback uncaught, and no
    promise is rejected. *)
Lemma callback_exception_escapes :
  run [JsCall R_init; JsCall R_startInventory;
       Runtime SimReader.emitter_gone true;
       TagCallback (Some SimReader.tag1)] SimReader.fresh
  = (Thrown SimReader.instance_gone, SimReader.inventory_torn_down,
     [HwCall GetInstance; HwCall Init; Resolve (VBool true);
      HwCall SetInventoryCallback; HwCall StartInventoryTag;
      Emit EVENT_INVENTORY_START None; Resolve (VBool true);
      Raise SimReader.instance_gone]) /\
  enter (InventoryCallback (Some SimReader.tag1)) SimReader.inventory_torn_down
  = (Thrown SimReader.instance_gone, SimReader.inventory_torn_down,
     [Raise SimReader.instance_gone]) /\
  instanceOf_Exception SimReader.instance_gone = true.
Proof. repeat split. Qed.

Section Events.
Context {hw : Type} `{!IUHF hw}.

Lemma run_cons (s : stimulus) (ss : list stimulus) (w w1 : World hw)
    (t1 : list action) :
  react s w = (Returned tt, w1, t1) ->
  run (s :: ss) w
  = (result_of (run ss w1), world_of (run ss w1), t1 ++ trace_of (run ss w1)).
Proof.
  intros E. cbn [run]. unfold bind. rewrite E.
  destruct (run ss w1) as [[r w2] t2]. reflexivity.
Qed.

Lemma run_cons_thrown (s : stimulus) (ss : list stimulus) (w w1 : World hw)
    (e : Throwable) (t1 : list action) :
  react s w = (Thrown e, w1, t1) ->
  run (s :: ss) w = (Thrown e, w1, t1).
Proof. intros E. cbn [run]. unfold bind. rewrite E. reflexivity. Qed.

(** [init] emits nothing and leaves the callback flag alone. *)
Lemma init_quiet (w : World hw) :
  emissions (trace_of (init w)) = [] /\
  inventoryCallback (world_of (init w)) = inventoryCallback w.
Proof. run_method. repeat (answer; cbn); split; reflexivity. Qed.

End Events.

Section AfterInit.
Context {hw : Type} `{!IUHF hw}.
Variable closed : hw -> Prop.
Hypothesis Hsdk : sdk_needs_init closed.

Lemma stays_closed (c : sdk_call) (d : hw) :
  closed d -> sdk_opens c d = false -> closed (sdk_after c d).
Proof.
  intros Hd Hno. destruct Hsdk as (Hstay & _ & _).
  destruct (Hstay c d Hd) as [H | H]; [exact H | congruence].
Qed.

(** The equation [call = (r, h)] of a case analysis names the device [h]
    the call leaves. *)
Ltac still_closed :=
  match goal with
  | H : closed ?d |- closed ?d => exact H
  | Heq : sdk_getInstance ?d = (_, ?h) |- closed ?h =>
      replace h with (sdk_after GetInstance d) by (cbn; rewrite Heq; reflexivity);
      apply stays_closed; [| reflexivity]
  | Heq : sdk_init ?d = (_, ?h) |- closed ?h =>
      replace h with (sdk_after Init d) by (cbn; rewrite Heq; reflexivity);
      apply stays_closed; [| cbn; rewrite Heq; reflexivity]
  | Heq : sdk_free ?d = (_, ?h) |- closed ?h =>
      replace h with (sdk_after Free d) by (cbn; rewrite Heq; reflexivity);
      apply stays_closed; [| reflexivity]
  | Heq : sdk_getVersion ?d = (_, ?h) |- closed ?h =>
      replace h with (sdk_after GetVersion d) by (cbn; rewrite Heq; reflexivity);
      apply stays_closed; [| reflexivity]
  | Heq : sdk_setPower ?d ?p = (_, ?h) |- closed ?h =>
      replace h with (sdk_after (SetPower p) d) by (cbn; rewrite Heq; reflexivity);
      apply stays_closed; [| reflexivity]
  | Heq : sdk_getPower ?d = (_, ?h) |- closed ?h =>
      replace h with (sdk_after GetPower d) by (cbn; rewrite Heq; reflexivity);
      apply stays_closed; [| reflexivity]
  | Heq : sdk_setFrequencyMode ?d ?m = (_, ?h) |- closed ?h =>
      replace h with (sdk_after (SetFrequencyMode m) d)
        by (cbn; rewrite Heq; reflexivity);
      apply stays_closed; [| reflexivity]
  | Heq : sdk_getFrequencyMode ?d = (_, ?h) |- closed ?h =>
      replace h with (sdk_after GetFrequencyMode d)
        by (cbn; rewrite Heq; reflexivity);
      apply stays_closed; [| reflexivity]
  | Heq : sdk_setInventoryCallback ?d = (_, ?h) |- closed ?h =>
      replace h with (sdk_after SetInventoryCallback d)
        by (cbn; rewrite Heq; reflexivity);
      apply stays_closed; [| reflexivity]
  | Heq : sdk_startInventoryTag ?d = (_, ?h) |- closed ?h =>
      replace h with (sdk_after StartInventoryTag d)
        by (cbn; rewrite Heq; reflexivity);
      apply stays_closed; [| reflexivity]
  | Heq : sdk_stopInventory ?d = (_, ?h) |- closed ?h =>
      replace h with (sdk_after StopInventory d)
        by (cbn; rewrite Heq; reflexivity);
      apply stays_closed; [| reflexivity]
  | Heq : sdk_inventorySingleTag ?d = (_, ?h) |- closed ?h =>
      replace h with (sdk_after InventorySingleTag d)
        by (cbn; rewrite Heq; reflexivity);
      apply stays_closed; [| reflexivity]
  | Heq : sdk_readData ?d ?a ?b ?p ?n = (_, ?h) |- closed ?h =>
      replace h with (sdk_after (ReadData a b p n) d)
        by (cbn; rewrite Heq; reflexivity);
      apply stays_closed; [| reflexivity]
  | Heq : sdk_writeData ?d ?a ?b ?p ?n ?x = (_, ?h) |- closed ?h =>
      replace h with (sdk_after (WriteData a b p n x) d)
        by (cbn; rewrite Heq; reflexivity);
      apply stays_closed; [| reflexivity]
  | Heq : sdk_writeDataToEpc ?d ?a ?x = (_, ?h) |- closed ?h =>
      replace h with (sdk_after (WriteDataToEpc a x) d)
        by (cbn; rewrite Heq; reflexivity);
      apply stays_closed; [| reflexivity]
  | Heq : sdk_setFilter ?d ?b ?p ?n ?x = (_, ?h) |- closed ?h =>
      replace h with (sdk_after (SetFilter b p n x) d)
        by (cbn; rewrite Heq; reflexivity);
      apply stays_closed; [| reflexivity]
  | Heq : sdk_lockMem ?d ?a ?x = (_, ?h) |- closed ?h =>
      replace h with (sdk_after (LockMem a x) d)
        by (cbn; rewrite Heq; reflexivity);
      apply stays_closed; [| reflexivity]
  | Heq : sdk_killTag ?d ?a = (_, ?h) |- closed ?h =>
      replace h with (sdk_after (KillTag a) d)
        by (cbn; rewrite Heq; reflexivity);
      apply stays_closed; [| reflexivity]
  | Heq : sdk_isInventorying ?d = (_, ?h) |- closed ?h =>
      replace h with (sdk_after IsInventorying d)
        by (cbn; rewrite Heq; reflexivity);
      apply stays_closed; [| reflexivity]
  | Heq : sdk_setEPCMode ?d = (_, ?h) |- closed ?h =>
      replace h with (sdk_after SetEPCMode d) by (cbn; rewrite Heq; reflexivity);
      apply stays_closed; [| reflexivity]
  | Heq : sdk_setEPCAndTIDMode ?d = (_, ?h) |- closed ?h =>
      replace h with (sdk_after SetEPCAndTIDMode d)
        by (cbn; rewrite Heq; reflexivity);
      apply stays_closed; [| reflexivity]
  end.

(** A closed reader refuses to start and to stop an inventory. *)
Ltac refused :=
  match goal with
  | Heq : sdk_startInventoryTag ?d = (Returned true, _) |- _ =>
      exfalso;
      assert (closed d) as Hd by (repeat still_closed);
      destruct Hsdk as (_ & Hstart & _);
      specialize (Hstart d Hd); rewrite Heq in Hstart; discriminate Hstart
  | Heq : sdk_stopInventory ?d = (Returned true, _) |- _ =>
      exfalso;
      assert (closed d) as Hd by (repeat still_closed);
      destruct Hsdk as (_ & _ & Hstop);
      specialize (Hstop d Hd); rewrite Heq in Hstop; discriminate Hstop
  end.

(** One method called on a closed reader: either it is the [init] that
    resolves with true, or the reader is still closed and no event has
    been emitted. *)
Lemma invoke_closed (r : request) (w : World hw) :
  closed (device w) ->
  (r = R_init /\ In (Resolve (VBool true)) (trace_of (init w))) \/
  (closed (device (world_of (invoke r w))) /\
   emissions (trace_of (invoke r w)) = []).
Proof.
  intros Hclosed.
  destruct r; run_method; repeat (answer; cbn).
  all: try refused.
  all: try solve [right; split; [repeat still_closed | reflexivity]].
  all: left; split; [reflexivity | cbn; tauto].
Qed.

(** The same for any stimulus: on a closed reader only a tag callback can
    emit an event of the adapter. *)
Lemma react_closed (s : stimulus) (w : World hw) :
  closed (device w) ->
  (s = JsCall R_init /\ In (Resolve (VBool true)) (trace_of (init w))) \/
  (closed (device (world_of (react s w))) /\
   forall eventName params,
     In (Emit eventName params) (trace_of (react s w)) ->
     is_adapter_event eventName = true ->
     exists uhftagInfo, s = TagCallback uhftagInfo).
Proof.
  intros Hclosed.
  destruct s as [r | keyCode | keyCode | uhftagInfo | js ctx]; cbn [react].
  - destruct (invoke_closed r w Hclosed) as [[-> Hok] | [Hstill Hquiet]].
    + left. split; [reflexivity | exact Hok].
    + right. split; [exact Hstill |].
      intros eventName params Hin _. exfalso.
      assert (In (Emit eventName params) (emissions (trace_of (invoke r w))))
        as Hf by (apply filter_In; split; [exact Hin | reflexivity]).
      rewrite Hquiet in Hf. exact Hf.
  - right. unfold MainActivity.onKeyDown, MainActivity.sendTriggerEvent.
    unfold_monad. repeat (answer; cbn); (split; [exact Hclosed |]);
      intros eventName params Hin Hadapter; exfalso; cbn in Hin;
      repeat destruct Hin as [Hin | Hin]; try discriminate Hin;
      try (injection Hin as <- <-; discriminate Hadapter); exact Hin.
  - right. unfold MainActivity.onKeyUp, MainActivity.sendTriggerEvent.
    unfold_monad. repeat (answer; cbn); (split; [exact Hclosed |]);
      intros eventName params Hin Hadapter; exfalso; cbn in Hin;
      repeat destruct Hin as [Hin | Hin]; try discriminate Hin;
      try (injection Hin as <- <-; discriminate Hadapter); exact Hin.
  - right. split.
    + destruct (inventoryCallback w); [| exact Hclosed].
      run_method. repeat (answer; cbn); exact Hclosed.
    + intros eventName params _ _. exists uhftagInfo. reflexivity.
  - right. split; [exact Hclosed | intros eventName params []].
Qed.

(** A run from a closed reader contains an [init] that resolved with
    true, or leaves the reader closed. *)
Lemma run_closed (ss : list stimulus) :
  forall w : World hw,
    closed (device w) ->
    init_succeeded ss w \/ closed (device (world_of (run ss w))).
Proof.
  induction ss as [| s ss IH]; intros w Hclosed.
  - right. exact Hclosed.
  - destruct (react_closed s w Hclosed) as [[-> Hok] | [Hstill _]].
    + left. exists [], ss. repeat split. exact Hok.
    + destruct (react s w) as [[[[] | e] w1] t1] eqn:E;
        cbn [world_of fst snd] in Hstill.
      * rewrite (run_cons s ss w w1 t1 E). cbn [world_of fst snd].
        destruct (IH w1 Hstill) as [(pre & post & -> & Hpre & Hok) | Hend].
        -- left. exists (s :: pre), post.
           rewrite (run_cons s pre w w1 t1 E). repeat split; assumption.
        -- right. exact Hend.
      * rewrite (run_cons_thrown s ss w w1 e t1 E). right. exact Hstill.
Qed.

End AfterInit.

Section EventsAfterInit.
Context {hw : Type} `{!IUHF hw}.

(** C5 (amended). onTagRead, onInventoryStart and onInventoryStop are
    emitted only after a successful [init]: with an SDK that starts or
    stops no inventory on a reader it has not opened, and delivers no tag
    from one, whenever such an event is emitted an earlier [init] has
    resolved with true.  The trigger events do not wait for [init]: a
    trigger key emits onTriggerPress or onTriggerRelease whenever the
    React context and its emitter are there. *)
Theorem adapter_events_need_init (closed : hw -> Prop) :
  (forall (pre : list stimulus) (s : stimulus) (d : hw) js ctx eventName params,
     sdk_needs_init closed ->
     closed d ->
     (forall uhftagInfo,
        s = TagCallback uhftagInfo ->
        ~ closed (device (world_of (run pre (startup d js ctx))))) ->
     result_of (run pre (startup d js ctx)) = Returned tt ->
     In (Emit eventName params)
        (trace_of (react s (world_of (run pre (startup d js ctx))))) ->
     is_adapter_event eventName = true ->
     init_succeeded pre (startup d js ctx)) /\
  (forall (w : World hw) (keyCode : Z),
     MainActivity.is_trigger_key keyCode = true ->
     currentReactContext w = true ->
     jsModule w = Returned (Some TheEmitter) ->
     MainActivity.onKeyDown keyCode w
     = (Returned MainActivity.Consumed, w, [Emit "onTriggerPress" None]) /\
     MainActivity.onKeyUp keyCode w
     = (Returned MainActivity.Consumed, w, [Emit "onTriggerRelease" None])).
Proof.
  split.
  - intros pre s d js ctx eventName params Hsdk Hd Hopen _ Hin Hadapter.
    destruct (run_closed closed Hsdk pre (startup d js ctx) Hd)
      as [Hok | Hclosed]; [exact Hok |].
    exfalso.
    destruct (react_closed closed Hsdk s _ Hclosed) as [[-> _] | [_ Hquiet]].
    + destruct (init_quiet (world_of (run pre (startup d js ctx)))) as [Hq _].
      assert (In (Emit eventName params)
                (emissions (trace_of (init (world_of (run pre (startup d js ctx)))))))
        as Hf by (apply filter_In; split; [exact Hin | reflexivity]).
      rewrite Hq in Hf. exact Hf.
    + destruct (Hquiet eventName params Hin Hadapter) as [info ->].
      exact (Hopen info eq_refl Hclosed).
  - intros w keyCode Hkey Hctx Hjs.
    unfold MainActivity.onKeyDown, MainActivity.onKeyUp,
      MainActivity.sendTriggerEvent.
    unfold_monad. rewrite Hkey, Hctx, Hjs. split; reflexivity.
Qed.

End EventsAfterInit.

Lemma sim_needs_init : sdk_needs_init sim_closed.
Proof.
  unfold sdk_needs_init, sim_closed. split; [| split].
  - intros c [att op pw fr inv fld] [Hop Hinv]. cbn in Hop, Hinv. subst op inv.
    destruct c; cbn; try (left; split; reflexivity).
    destruct att; cbn; [right; reflexivity | left; split; reflexivity].
  - intros [att op pw fr inv fld] [Hop Hinv]. cbn in *. subst. reflexivity.
  - intros [att op pw fr inv fld] [Hop Hinv]. cbn in *. subst. reflexivity.
Qed.

Lemma adapter_events_need_init_witness :
  init_succeeded [JsCall R_init; JsCall R_startInventory]
    (startup SimReader.bench SimReader.emitter_ready true).
Proof.
  apply (proj1 (adapter_events_need_init sim_closed)
           [JsCall R_init; JsCall R_startInventory]
           (TagCallback (Some SimReader.tag1))
           SimReader.bench SimReader.emitter_ready true
           EVENT_TAG_READ (Some (createTagMap (Some SimReader.tag1)))
           sim_needs_init).
  - split; reflexivity.
  - intros uhftagInfo _ [Hopened _]. discriminate Hopened.
  - reflexivity.
  - vm_compute. left. reflexivity.
  - reflexivity.
Defined.

(** C5, as stated, fails: in a process that has never called [init], the
    trigger key 293 emits onTriggerPress. *)
Lemma trigger_event_before_init :
  run [KeyDown 293] SimReader.fresh
  = (Returned tt, SimReader.fresh, [Emit "onTriggerPress" None]) /\
  ~ init_succeeded [KeyDown 293] SimReader.fresh.
Proof.
  split; [reflexivity |].
  intros (pre & post & E & _).
  destruct pre as [| s [| s' pre]]; discriminate E.
Qed.

Section TagPayload.
Context {hw : Type}.

(** C6 (amended). A tag-read event carries the map built from the record
    the SDK delivered.  For a tag record its epc field holds the EPC the
    SDK reported: non-empty whenever that EPC is, the empty string when
    the SDK reported none; its tid and user fields are empty strings when
    the active inventory mode excludes them, the SDK then delivering the
    record without that data.  A null record is relayed as a map without
    fields. *)
Theorem tag_payload (excludes_tid excludes_user : hw -> bool)
    (w : World hw) (uhftagInfo : option UHFTAGInfo) :
  (forall t, uhftagInfo = Some t ->
             sdk_honours_mode excludes_tid excludes_user (device w) t) ->
  (forall em,
     jsModule w = Returned (Some em) ->
     IUHFInventoryCallback_callback uhftagInfo w
     = (Returned tt, w,
        [Emit EVENT_TAG_READ (Some (createTagMap uhftagInfo))])) /\
  (forall eventName params,
     In (Emit eventName params)
        (trace_of (IUHFInventoryCallback_callback uhftagInfo w)) ->
     eventName = EVENT_TAG_READ /\
     params = Some (createTagMap uhftagInfo)) /\
  match uhftagInfo with
  | Some t =>
      createTagMap uhftagInfo !! "epc" = Some (default "" (getEPC t)) /\
      (createTagMap uhftagInfo !! "epc" = Some "" <-> no_data (getEPC t)) /\
      (excludes_tid (device w) = true ->
       createTagMap uhftagInfo !! "tid" = Some "") /\
      (excludes_user (device w) = true ->
       createTagMap uhftagInfo !! "user" = Some "")
  | None => createTagMap uhftagInfo = ∅
  end.
Proof.
  intros Hmode. split; [| split].
  - intros em Hjs. unfold_methods. unfold_monad. rewrite Hjs. reflexivity.
  - intros eventName params. unfold_methods. unfold_monad.
    destruct (jsModule w) as [[em |] | e]; cbn; intros Hin;
      destruct Hin as [Hin | []]; try discriminate Hin.
    injection Hin as <- <-. split; reflexivity.
  - destruct uhftagInfo as [t |]; [| reflexivity].
    destruct (Hmode t eq_refl) as [Htid Huser].
    assert (forall field : option string,
              no_data field -> default "" field = "") as Hdefault.
    { intros field [-> | ->]; reflexivity. }
    unfold createTagMap. split; [| split; [| split]].
    + rewrite !lookup_insert_ne by discriminate. apply lookup_insert_eq.
    + rewrite !lookup_insert_ne by discriminate. rewrite lookup_insert_eq.
      unfold no_data. destruct (getEPC t) as [s |]; cbn.
      * split; [intros [= ->]; right; reflexivity |].
        intros [H | [= ->]]; [discriminate H | reflexivity].
      * split; [left; reflexivity | reflexivity].
    + intros Hex. rewrite !lookup_insert_ne by discriminate.
      rewrite lookup_insert_eq, (Hdefault _ (Htid Hex)). reflexivity.
    + intros Hex. rewrite !lookup_insert_ne by discriminate.
      rewrite lookup_insert_eq, (Hdefault _ (Huser Hex)). reflexivity.
Qed.

End TagPayload.

Lemma tag_payload_witness :
  (forall em,
     jsModule SimReader.inventory_running = Returned (Some em) ->
     IUHFInventoryCallback_callback (Some SimReader.tag1)
       SimReader.inventory_running
     = (Returned tt, SimReader.inventory_running,
        [Emit EVENT_TAG_READ (Some (createTagMap (Some SimReader.tag1)))])) /\
  (forall eventName params,
     In (Emit eventName params)
        (trace_of (IUHFInventoryCallback_callback (Some SimReader.tag1)
                     SimReader.inventory_running)) ->
     eventName = EVENT_TAG_READ /\
     params = Some (createTagMap (Some SimReader.tag1))) /\
  createTagMap (Some SimReader.tag1) !! "epc"
  = Some (default "" (getEPC SimReader.tag1)) /\
  (createTagMap (Some SimReader.tag1) !! "epc" = Some ""
   <-> no_data (getEPC SimReader.tag1)) /\
  (false = true -> createTagMap (Some SimReader.tag1) !! "tid" = Some "") /\
  (true = true -> createTagMap (Some SimReader.tag1) !! "user" = Some "").
Proof.
  apply (tag_payload (fun _ => false) (fun _ => true)
           SimReader.inventory_running (Some SimReader.tag1)).
  intros t [= <-]. split; [discriminate | intros _; left; reflexivity].
Defined.

(** C6, as stated, fails: when the SDK reports a read without an EPC, the
    tag-read event is delivered with an empty epc field, and when it
    delivers a null record, with no epc field at all. *)
Lemma tag_payload_empty_epc :
  trace_of (run [JsCall R_init; JsCall R_startInventory;
                 TagCallback (Some SimReader.blank_tag)] SimReader.fresh)
  = [HwCall GetInstance; HwCall Init; Resolve (VBool true);
     HwCall SetInventoryCallback; HwCall StartInventoryTag;
     Emit EVENT_INVENTORY_START None; Resolve (VBool true);
     Emit EVENT_TAG_READ (Some (createTagMap (Some SimReader.blank_tag)))] /\
  createTagMap (Some SimReader.blank_tag) !! "epc" = Some "" /\
  trace_of (run [JsCall R_init; JsCall R_startInventory; TagCallback None]
              SimReader.fresh)
  = [HwCall GetInstance; HwCall Init; Resolve (VBool true);
     HwCall SetInventoryCallback; HwCall StartInventoryTag;
     Emit EVENT_INVENTORY_START None; Resolve (VBool true);
     Emit EVENT_TAG_READ (Some (createTagMap None))] /\
  createTagMap None !! "epc" = None.
Proof. repeat split. Qed.

Section Frequency.
Context {hw : Type} `{!IUHF hw}.

(** C8. For every mode X of the frequency-region constants, provided the
    SDK remembers the mode it accepted: when [setFrequencyMode X]
    resolves with true, the [getFrequencyMode] that follows queries the
    SDK and resolves with X. *)
Theorem frequency_round_trip (w : World hw) (region : string) (X : Z) :
  sdk_keeps_frequency ->
  In region frequency_regions ->
  getConstants !! region = Some (CInt X) ->
  In (Resolve (VBool true)) (trace_of (setFrequencyMode X w)) ->
  trace_of (setFrequencyMode X w)
  = [HwCall (SetFrequencyMode X); Resolve (VBool true)] /\
  trace_of (getFrequencyMode (world_of (setFrequencyMode X w)))
  = [HwCall GetFrequencyMode; Resolve (VInt X)].
Proof.
  intros Hsdk _ _.
  unfold_methods. unfold_monad. cbn.
  destruct (rfidReader w) as [reader |] eqn:Hreader; cbn.
  - destruct (sdk_setFrequencyMode (device w) X) as [[[|] | e] d1] eqn:Hset;
      cbn.
    + intros _. rewrite Hreader. cbn.
      pose proof (Hsdk _ _ _ Hset) as Hget.
      destruct (sdk_getFrequencyMode d1) as [got d2]. cbn in Hget.
      rewrite Hget. cbn. split; reflexivity.
    + intros Hin. exfalso. cbn in Hin.
      repeat destruct Hin as [Hin | Hin]; try discriminate Hin. exact Hin.
    + destruct (instanceOf_Exception e); cbn; intros Hin; exfalso;
        repeat destruct Hin as [Hin | Hin]; try discriminate Hin; exact Hin.
  - intros Hin. exfalso.
    repeat destruct Hin as [Hin | Hin]; try discriminate Hin. exact Hin.
Qed.

End Frequency.

(** The simulated reader keeps the frequency mode it accepted. *)
Lemma sim_keeps_frequency : sdk_keeps_frequency (hw := SimReader.state).
Proof.
  intros d d1 mode. cbn.
  destruct (SimReader.opened d); intros E; inversion E; reflexivity.
Defined.

Lemma frequency_round_trip_witness :
  trace_of (setFrequencyMode 0x16 SimReader.ready_world)
  = [HwCall (SetFrequencyMode 0x16); Resolve (VBool true)] /\
  trace_of (getFrequencyMode
              (world_of (setFrequencyMode 0x16 SimReader.ready_world)))
  = [HwCall GetFrequencyMode; Resolve (VInt 0x16)].
Proof.
  apply (frequency_round_trip SimReader.ready_world "FREQ_KOREA" 0x16
           sim_keeps_frequency).
  - cbn. do 4 right. left. reflexivity.
  - reflexivity.
  - vm_compute. right. left. reflexivity.
Defined.

(** The six regions are the six modes 0x01, 0x02, 0x04, 0x08, 0x16, 0x32. *)
Lemma frequency_region_values {hw : Type} `{!IUHF hw} :
  (fun region => getConstants !! region) <$> frequency_regions
  = [Some (CInt 1); Some (CInt 2); Some (CInt 4); Some (CInt 8);
     Some (CInt 22); Some (CInt 50)].
Proof. reflexivity. Qed.

(** ** The client facade *)

(** C10. When [NativeModules] has no ChainwayRfid module (the entry is
    undefined or null), loading the facade throws the error
    'ChainwayRfid native module is not available'; whenever loading yields
    the facade, the native module exists and the facade's constants are
    the ones it publishes. *)
Theorem load_guard (NativeModules : gmap string ChainwayRFID.js_module) :
  (NativeModules !! "ChainwayRfid" = None \/
   NativeModules !! "ChainwayRfid" = Some ChainwayRFID.JsNull ->
   ChainwayRFID.load NativeModules
   = inl "ChainwayRfid native module is not available") /\
  (forall facade,
     ChainwayRFID.load NativeModules = inr facade ->
     exists constants,
       NativeModules !! "ChainwayRfid" = Some (ChainwayRFID.JsObject constants) /\
       ChainwayRFID.FREQ_USA facade = constants !! "FREQ_USA" /\
       ChainwayRFID.BANK_EPC facade = constants !! "BANK_EPC" /\
       ChainwayRFID.EVENT_TAG_READ facade = constants !! "EVENT_TAG_READ").
Proof.
  unfold ChainwayRFID.load. split.
  - intros [-> | ->]; reflexivity.
  - intros facade.
    destruct (NativeModules !! "ChainwayRfid") as [[| constants] |];
      try discriminate.
    intros [= <-]. exists constants. repeat split.
Qed.

Lemma load_guard_witness :
  ChainwayRFID.load (∅ : gmap string ChainwayRFID.js_module)
  = inl "ChainwayRfid native module is not available".
Proof.
  apply (proj1 (load_guard ∅)). left. reflexivity.
Defined.

(** With the adapter registered, the facade loads and publishes the
    adapter's constants. *)
Example load_with_adapter :
  sum_map id ChainwayRFID.FREQ_KOREA
    (ChainwayRFID.load
       {[ MODULE_NAME := ChainwayRFID.JsObject (getConstants (hw := SimReader.state)) ]})
  = inr (Some (CInt 0x16)).
Proof. reflexivity. Qed.

(** [setPower] rejects every finite power below 0 or above 30. *)
Lemma setPower_out_of_range (q : Q) :
  (q < 0 \/ 30 < q)%Q ->
  ChainwayRFID.setPower (ChainwayRFID.Finite q)
  = ChainwayRFID.Promise_reject "Power must be between 0 and 30".
Proof.
  unfold ChainwayRFID.setPower, ChainwayRFID.gt, ChainwayRFID.lt,
    ChainwayRFID.of_Z.
  unfold Qcompare, Qlt, Z.lt. cbn [Qnum Qden inject_Z].
  intros [H | H]; rewrite H.
  - reflexivity.
  - rewrite orb_true_r. reflexivity.
Qed.

(** It rejects both infinities. *)
Lemma setPower_infinite (negative : bool) :
  ChainwayRFID.setPower (ChainwayRFID.Infinity negative)
  = ChainwayRFID.Promise_reject "Power must be between 0 and 30".
Proof. destruct negative; reflexivity. Qed.

(** It forwards every integer from 0 to 30 unchanged. *)
Lemma setPower_in_range (power : Z) :
  0 <= power <= 30 ->
  ChainwayRFID.setPower (ChainwayRFID.of_Z power)
  = ChainwayRFID.Native (ChainwayRFID.N_setPower (ChainwayRFID.of_Z power)).
Proof.
  intros Hrange.
  unfold ChainwayRFID.setPower, ChainwayRFID.gt, ChainwayRFID.lt,
    ChainwayRFID.of_Z.
  unfold Qcompare. cbn [Qnum Qden inject_Z].
  rewrite !Z.mul_1_r.
  destruct (Z.compare_spec power 0); destruct (Z.compare_spec 30 power);
    try lia; reflexivity.
Qed.

(** C2. NaN is a number outside [0, 30]: both comparisons of the range
    check are false on it, so [setPower] does not reject and hands NaN to
    the native module. *)
Theorem setPower_NaN_forwarded :
  ChainwayRFID.lt ChainwayRFID.NaN (ChainwayRFID.of_Z 0) = false /\
  ChainwayRFID.gt ChainwayRFID.NaN (ChainwayRFID.of_Z 30) = false /\
  ChainwayRFID.setPower ChainwayRFID.NaN
  = ChainwayRFID.Native (ChainwayRFID.N_setPower ChainwayRFID.NaN).
Proof. repeat split. Qed.

(** * Further properties of the adapter *)

Section Settlement.
Context {hw : Type} `{!IUHF hw}.

(** X1. Every method that returns has settled its promise exactly once, as
    the last thing it did; a method left by a [java.lang.Error] has not
    settled it at all. *)
Theorem settles_once (r : request) (w : World hw) :
  match result_of (invoke r w) with
  | Returned _ =>
      exists a,
        settlements (trace_of (invoke r w)) = [a] /\
        last (trace_of (invoke r w)) = Some a
  | Thrown e =>
      settlements (trace_of (invoke r w)) = [] /\
      instanceOf_Exception e = false
  end.
Proof.
  destruct r; run_method; repeat (answer; cbn);
    first [ eexists; split; reflexivity | split; [reflexivity | assumption] ].
Qed.

(** X2. No method retries: it calls the SDK at most once ([init] and
    [startInventory] at most twice, for [getInstance] and
    [setInventoryCallback]) and emits at most one event. *)
Theorem no_retry (r : request) (w : World hw) :
  (length (hardware_calls (trace_of (invoke r w))) <= call_budget r)%nat /\
  (length (emissions (trace_of (invoke r w))) <= 1)%nat.
Proof.
  destruct r; run_method; repeat (answer; cbn); split; lia.
Qed.

End Settlement.

Ltac the_reject :=
  repeat match goal with
  | H : In (Reject _ _) _ |- _ => cbn in H
  | H : _ \/ _ |- _ => destruct H
  | H : False |- _ => destruct H
  | H : HwCall _ = Reject _ _ |- _ => discriminate H
  | H : Resolve _ = Reject _ _ |- _ => discriminate H
  | H : Raise _ = Reject _ _ |- _ => discriminate H
  | H : Emit _ _ = Reject _ _ |- _ => discriminate H
  | H : Reject _ _ = Reject _ _ |- _ => injection H as <- <-
  end.

Ltac the_emit :=
  repeat match goal with
  | H : In (Emit _ _) _ |- _ => cbn in H
  | H : _ \/ _ |- _ => destruct H
  | H : False |- _ => destruct H
  | H : HwCall _ = Emit _ _ |- _ => discriminate H
  | H : Resolve _ = Emit _ _ |- _ => discriminate H
  | H : Raise _ = Emit _ _ |- _ => discriminate H
  | H : Reject _ _ = Emit _ _ |- _ => discriminate H
  | H : Emit _ _ = Emit _ _ |- _ => injection H as <- <-
  end.

Lemma configuration_is_exception (e : Throwable) :
  instanceOf_ConfigurationException e = true -> instanceOf_Exception e = true.
Proof.
  unfold instanceOf_ConfigurationException, instanceOf_Exception.
  destruct (classOf e); intros H; first [reflexivity | discriminate H].
Qed.

Section Causes.
Context {hw : Type} `{!IUHF hw}.

(** X3. A rejection has one of three causes, whatever the method: the
    handle was null (NOT_INITIALIZED), the hardware call returned its
    failure sentinel (the code of that case), or an [Exception] was raised
    and is reported under the code of the method. *)
Theorem rejection_causes (r : request) (w : World hw) (code message : string) :
  In (Reject code message) (trace_of (invoke r w)) ->
  (is_init r = false /\ rfidReader w = None /\
   Reject code message = NOT_INITIALIZED) \/
  (ready r w = true /\ returns_sentinel r (device w) = true /\
   Reject code message = sentinel_outcome r) \/
  (exists e,
     In (Raise e) (trace_of (invoke r w)) /\
     instanceOf_Exception e = true /\
     code = reported_code r e).
Proof.
  unfold ready, returns_sentinel, reported_code, is_false, is_null.
  destruct r; run_method; repeat (answer; cbn); intros Hin; the_reject.
  all: try (left; repeat split; assumption).
  all: try (right; left; repeat split; reflexivity).
  all: right; right; eexists; split; [ cbn; eauto 6 |];
    (split;
     [ first [ assumption | reflexivity
             | apply configuration_is_exception; assumption ]
     | cbn;
       repeat match goal with
       | H : instanceOf_ConfigurationException _ = _ |- _ => rewrite H
       end; reflexivity ]).
Qed.

(** With the handle set, no method answers NOT_INITIALIZED. *)
Lemma armed_not_refused (r : request) (w : World hw) (inst : RFIDWithUHFUART) :
  rfidReader w = Some inst ->
  is_init r = false ->
  ~ In NOT_INITIALIZED (trace_of (invoke r w)).
Proof.
  intros Hset Hr. unfold NOT_INITIALIZED.
  destruct r; try discriminate Hr; run_method; rewrite Hset; cbn;
    repeat (answer; cbn); intros Hin;
    repeat destruct Hin as [Hin | Hin]; try discriminate Hin; exact Hin.
Qed.

(** X4. Whenever [getInstance] returned the reader, [init] has set the handle,
    whether it then resolved or rejected: the calls that follow a failed
    [init] are not answered NOT_INITIALIZED. *)
Theorem failed_init_arms (w : World hw) (inst : RFIDWithUHFUART) (d : hw)
    (r : request) :
  sdk_getInstance (device w) = (Returned (Some inst), d) ->
  is_init r = false ->
  rfidReader (world_of (init w)) = Some inst /\
  ~ In NOT_INITIALIZED (trace_of (invoke r (world_of (init w)))).
Proof.
  intros Hget Hr.
  assert (rfidReader (world_of (init w)) = Some inst) as Hset.
  { run_method. rewrite Hget. cbn. repeat (answer; cbn); reflexivity. }
  split; [exact Hset |].
  exact (armed_not_refused r _ inst Hset Hr).
Qed.

(** No method but [init] touches the handle, [free] included. *)
Lemma handle_kept (r : request) (w : World hw) :
  is_init r = false ->
  rfidReader (world_of (invoke r w)) = rfidReader w.
Proof.
  intros Hr. destruct r; try discriminate Hr;
    run_method; repeat (answer; cbn); congruence.
Qed.

End Causes.

Section Runs.
Context {hw : Type} `{!IUHF hw}.

(** Whatever happens in a run happens while one of its stimuli is served,
    the stimuli before it having returned. *)
Lemma run_In (a : action) (ss : list stimulus) :
  forall w : World hw,
    In a (trace_of (run ss w)) ->
    exists pre s post,
      ss = pre ++ s :: post /\
      result_of (run pre w) = Returned tt /\
      In a (trace_of (react s (world_of (run pre w)))).
Proof.
  induction ss as [| s ss IH]; intros w Hin.
  - destruct Hin.
  - destruct (react s w) as [[[[] | e] w1] t1] eqn:E.
    + rewrite (run_cons s ss w w1 t1 E) in Hin. cbn [trace_of snd] in Hin.
      apply in_app_or in Hin. destruct Hin as [Hin | Hin].
      * exists [], s, ss. cbn. rewrite E. repeat split. exact Hin.
      * destruct (IH w1 Hin) as (pre & s' & post & -> & Hpre & Hs').
        exists (s :: pre), s', post.
        rewrite (run_cons s pre w w1 t1 E). repeat split; assumption.
    + rewrite (run_cons_thrown s ss w w1 e t1 E) in Hin.
      exists [], s, ss. cbn. rewrite E. repeat split. exact Hin.
Qed.

(** What one stimulus can emit. *)
Lemma react_events (s : stimulus) (w : World hw) (eventName : string)
    (params : option (gmap string string)) :
  In (Emit eventName params) (trace_of (react s w)) ->
  (eventName = EVENT_TAG_READ /\
   inventoryCallback w = true /\
   exists uhftagInfo,
     s = TagCallback uhftagInfo /\
     params = Some (createTagMap uhftagInfo)) \/
  (params = None /\ In eventName bare_events).
Proof.
  destruct s as [r | keyCode | keyCode | uhftagInfo | js ctx]; cbn [react].
  - destruct r; run_method; repeat (answer; cbn); intros Hin; the_emit;
      right; (split; [reflexivity | cbn; tauto]).
  - unfold MainActivity.onKeyDown, MainActivity.sendTriggerEvent.
    unfold_monad. repeat (answer; cbn); intros Hin; the_emit;
      right; (split; [reflexivity | cbn; tauto]).
  - unfold MainActivity.onKeyUp, MainActivity.sendTriggerEvent.
    unfold_monad. repeat (answer; cbn); intros Hin; the_emit;
      right; (split; [reflexivity | cbn; tauto]).
  - destruct (inventoryCallback w) eqn:Hcb.
    + run_method. repeat (answer; cbn); intros Hin; the_emit.
      left. split; [reflexivity | split; [reflexivity |]].
      exists uhftagInfo. split; reflexivity.
    + cbn. intros [].
  - cbn. intros [].
Qed.

(** X7. Every event of a run is a tag read carrying a tag map, or one of the
    four events without a payload. *)
Theorem run_events (ss : list stimulus) (w : World hw) (eventName : string)
    (params : option (gmap string string)) :
  In (Emit eventName params) (trace_of (run ss w)) ->
  (eventName = EVENT_TAG_READ /\
   exists uhftagInfo, params = Some (createTagMap uhftagInfo)) \/
  (params = None /\ In eventName bare_events).
Proof.
  intros Hin.
  destruct (run_In _ _ _ Hin) as (pre & s & post & _ & _ & Hs).
  destruct (react_events _ _ _ _ Hs) as [(Hn & _ & info & _ & Hp) | Hbare].
  - left. split; [exact Hn | exists info; exact Hp].
  - right. exact Hbare.
Qed.

End Runs.

Section Lifecycle.
Context {hw : Type} `{!IUHF hw}.

(** Only [init] writes the handle. *)
Lemma react_keeps_handle (s : stimulus) (w : World hw) :
  is_JsCall_init s = false ->
  rfidReader (world_of (react s w)) = rfidReader w.
Proof.
  destruct s as [r | keyCode | keyCode | uhftagInfo | js ctx]; cbn [react].
  - intros Hs. apply handle_kept. destruct r; first [reflexivity | discriminate Hs].
  - intros _. unfold MainActivity.onKeyDown, MainActivity.sendTriggerEvent.
    unfold_monad. repeat (answer; cbn); reflexivity.
  - intros _. unfold MainActivity.onKeyUp, MainActivity.sendTriggerEvent.
    unfold_monad. repeat (answer; cbn); reflexivity.
  - intros _. run_method. repeat (answer; cbn); reflexivity.
  - intros _. reflexivity.
Qed.

Lemma react_not_refused (s : stimulus) (w : World hw) (inst : RFIDWithUHFUART) :
  rfidReader w = Some inst ->
  is_JsCall_init s = false ->
  ~ In NOT_INITIALIZED (trace_of (react s w)).
Proof.
  intros Hset.
  destruct s as [r | keyCode | keyCode | uhftagInfo | js ctx]; cbn [react].
  - intros Hs. apply (armed_not_refused r w inst Hset).
    destruct r; first [reflexivity | discriminate Hs].
  - intros _. unfold NOT_INITIALIZED, MainActivity.onKeyDown,
      MainActivity.sendTriggerEvent.
    unfold_monad. repeat (answer; cbn); intros Hin;
      repeat destruct Hin as [Hin | Hin]; try discriminate Hin; exact Hin.
  - intros _. unfold NOT_INITIALIZED, MainActivity.onKeyUp,
      MainActivity.sendTriggerEvent.
    unfold_monad. repeat (answer; cbn); intros Hin;
      repeat destruct Hin as [Hin | Hin]; try discriminate Hin; exact Hin.
  - intros _. unfold NOT_INITIALIZED. run_method.
    repeat (answer; cbn); intros Hin;
      repeat destruct Hin as [Hin | Hin]; try discriminate Hin; exact Hin.
  - intros _ [].
Qed.

(** X5. Once the handle is set, only another [init] can take it away: in a
    run without [init], whatever else is called, [free] included, the
    handle stays and no call is answered NOT_INITIALIZED. *)
Theorem stays_armed (ss : list stimulus) :
  forall (w : World hw) (inst : RFIDWithUHFUART),
    rfidReader w = Some inst ->
    forallb (fun s => negb (is_JsCall_init s)) ss = true ->
    rfidReader (world_of (run ss w)) = Some inst /\
    ~ In NOT_INITIALIZED (trace_of (run ss w)).
Proof.
  induction ss as [| s ss IH]; intros w inst Hset Hno.
  - split; [exact Hset | intros []].
  - cbn [forallb] in Hno. apply andb_prop in Hno. destruct Hno as [Hs Hss].
    apply negb_true_iff in Hs.
    pose proof (react_keeps_handle s w Hs) as Hkeep.
    pose proof (react_not_refused s w inst Hset Hs) as Hquiet.
    destruct (react s w) as [[[[] | e] w1] t1] eqn:E;
      cbn [world_of trace_of fst snd] in Hkeep, Hquiet.
    + rewrite (run_cons s ss w w1 t1 E). cbn [world_of trace_of fst snd].
      destruct (IH w1 inst) as [Hend Hrest]; [congruence | exact Hss |].
      split; [exact Hend |].
      intros Hin. apply in_app_or in Hin. tauto.
    + rewrite (run_cons_thrown s ss w w1 e t1 E).
      split; [cbn; congruence | exact Hquiet].
Qed.

(** The callback reaches the SDK only through [startInventory]. *)
Lemma react_keeps_callback_off (s : stimulus) (w : World hw) :
  is_JsCall_startInventory s = false ->
  inventoryCallback w = false ->
  inventoryCallback (world_of (react s w)) = false.
Proof.
  destruct s as [r | keyCode | keyCode | uhftagInfo | js ctx]; cbn [react].
  - intros Hs Hoff. destruct r; try discriminate Hs;
      run_method; repeat (answer; cbn); exact Hoff.
  - intros _ Hoff. unfold MainActivity.onKeyDown, MainActivity.sendTriggerEvent.
    unfold_monad. repeat (answer; cbn); exact Hoff.
  - intros _ Hoff. unfold MainActivity.onKeyUp, MainActivity.sendTriggerEvent.
    unfold_monad. repeat (answer; cbn); exact Hoff.
  - intros _ Hoff. rewrite Hoff. exact Hoff.
  - intros _ Hoff. exact Hoff.
Qed.

Lemma callback_needs_start (ss : list stimulus) :
  forall w : World hw,
    inventoryCallback w = false ->
    inventoryCallback (world_of (run ss w)) = true ->
    In (JsCall R_startInventory) ss.
Proof.
  induction ss as [| s ss IH]; intros w Hoff Hon.
  - cbn in Hon. congruence.
  - destruct (is_JsCall_startInventory s) eqn:Hs.
    + left. destruct s as [[] | | | |]; first [reflexivity | discriminate Hs].
    + right. pose proof (react_keeps_callback_off s w Hs Hoff) as Hoff1.
      destruct (react s w) as [[[[] | e] w1] t1] eqn:E;
        cbn [world_of fst snd] in Hoff1.
      * rewrite (run_cons s ss w w1 t1 E) in Hon. exact (IH w1 Hoff1 Hon).
      * rewrite (run_cons_thrown s ss w w1 e t1 E) in Hon.
        cbn in Hon. congruence.
Qed.

(** X8. From process start, a stimulus that emits onTagRead is a callback
    of the SDK, the payload is the map of the record it delivers, and
    [startInventory] has been called before it. *)
Theorem tag_read_needs_start (pre : list stimulus) (s : stimulus) (d : hw)
    (js : jresult (option RCTDeviceEventEmitter)) (ctx : bool)
    (params : option (gmap string string)) :
  result_of (run pre (startup d js ctx)) = Returned tt ->
  In (Emit EVENT_TAG_READ params)
     (trace_of (react s (world_of (run pre (startup d js ctx))))) ->
  (exists uhftagInfo,
     s = TagCallback uhftagInfo /\
     params = Some (createTagMap uhftagInfo)) /\
  In (JsCall R_startInventory) pre.
Proof.
  intros _ Hs.
  destruct (react_events _ _ _ _ Hs) as [(_ & Hon & info & -> & ->) | [_ Hbare]].
  - split; [exists info; split; reflexivity |].
    apply (callback_needs_start pre (startup d js ctx)); [reflexivity | exact Hon].
  - exfalso. cbn in Hbare.
    repeat destruct Hbare as [Hbare | Hbare]; try discriminate Hbare.
    exact Hbare.
Qed.

End Lifecycle.

Section Edges.
Context {hw : Type} `{!IUHF hw}.

(** The SDK keeps the callback for good: nothing the bridge does takes it
    back. *)
Lemma react_keeps_callback_on (s : stimulus) (w : World hw) :
  inventoryCallback w = true ->
  inventoryCallback (world_of (react s w)) = true.
Proof.
  intros Hon.
  destruct s as [r | keyCode | keyCode | uhftagInfo | js ctx]; cbn [react].
  - destruct r; run_method; repeat (answer; cbn); first [exact Hon | reflexivity].
  - unfold MainActivity.onKeyDown, MainActivity.sendTriggerEvent.
    unfold_monad. repeat (answer; cbn); exact Hon.
  - unfold MainActivity.onKeyUp, MainActivity.sendTriggerEvent.
    unfold_monad. repeat (answer; cbn); exact Hon.
  - rewrite Hon. run_method. repeat (answer; cbn); exact Hon.
  - exact Hon.
Qed.

Lemma run_keeps_callback_on (ss : list stimulus) :
  forall w : World hw,
    inventoryCallback w = true ->
    inventoryCallback (world_of (run ss w)) = true.
Proof.
  induction ss as [| s ss IH]; intros w Hon; [exact Hon |].
  pose proof (react_keeps_callback_on s w Hon) as Hon1.
  destruct (react s w) as [[[[] | e] w1] t1] eqn:E;
    cbn [world_of fst snd] in Hon1.
  - rewrite (run_cons s ss w w1 t1 E). exact (IH w1 Hon1).
  - rewrite (run_cons_thrown s ss w w1 e t1 E). exact Hon1.
Qed.

(** X9. The bridge does not filter tag reads by the state of the inventory:
    once [startInventory] has handed the callback over, whatever is called
    afterwards ([stopInventory], [free]), a tag the SDK still delivers is
    emitted as onTagRead. *)
Theorem tags_relayed_after_stop (ss : list stimulus) (w : World hw)
    (uhftagInfo : option UHFTAGInfo) :
  inventoryCallback w = true ->
  jsModule (world_of (run ss w)) = Returned (Some TheEmitter) ->
  react (TagCallback uhftagInfo) (world_of (run ss w))
  = (Returned tt, world_of (run ss w),
     [Emit EVENT_TAG_READ (Some (createTagMap uhftagInfo))]).
Proof.
  intros Hon Hjs.
  pose proof (run_keeps_callback_on ss w Hon) as Hon1.
  destruct (world_of (run ss w)) as [d reader cb js ctx].
  cbn in Hon1, Hjs. subst cb js. reflexivity.
Qed.

(** X6. When the hardware call has succeeded but the event cannot be emitted,
    [startInventory] and [stopInventory] reject with START_ERROR and
    STOP_ERROR although the reader has changed state: a rejected
    [startInventory] may leave the inventory running. *)
Theorem emit_failure_after_hardware (w : World hw) (inst : RFIDWithUHFUART)
    (e : Throwable) :
  rfidReader w = Some inst ->
  jsModule w = Thrown e ->
  instanceOf_Exception e = true ->
  (forall d1 d2,
     sdk_setInventoryCallback (device w) = (Returned tt, d1) ->
     sdk_startInventoryTag d1 = (Returned true, d2) ->
     startInventory w
     = (Returned tt,
        mkWorld d2 (Some inst) true (Thrown e) (currentReactContext w),
        [HwCall SetInventoryCallback; HwCall StartInventoryTag; Raise e;
         Reject "START_ERROR"
           (concat_message "Error starting inventory: " e)])) /\
  (forall d3,
     sdk_stopInventory (device w) = (Returned true, d3) ->
     stopInventory w
     = (Returned tt,
        mkWorld d3 (Some inst) (inventoryCallback w) (Thrown e)
                (currentReactContext w),
        [HwCall StopInventory; Raise e;
         Reject "STOP_ERROR"
           (concat_message "Error stopping inventory: " e)])).
Proof.
  intros Hset Hjs He. split.
  - intros d1 d2 Hcb Hstart.
    run_method. rewrite Hset. cbn. rewrite Hcb. cbn.
    rewrite Hstart. cbn. rewrite Hjs. cbn. rewrite He. cbn.
    rewrite ?Hset, ?Hjs. reflexivity.
  - intros d3 Hstop.
    run_method. rewrite Hset. cbn. rewrite Hstop. cbn.
    rewrite Hjs. cbn. rewrite He. cbn.
    rewrite ?Hset, ?Hjs. reflexivity.
Qed.

(** What a key does: a key other than 280, 293 and 294 is left to the
    activity; a trigger key is consumed, and its event is emitted when the
    React context and its emitter are there, dropped without a trace when
    the context or the emitter is null; an exception of [getJSModule] is
    not caught. *)
Lemma key_outcomes (w : World hw) (keyCode : Z) :
  MainActivity.onKeyDown keyCode w
  = (if bool_decide (keyCode ∈ [280; 293; 294]) then
       if currentReactContext w then
         match jsModule w with
         | Returned (Some _) =>
             (Returned MainActivity.Consumed, w, [Emit "onTriggerPress" None])
         | Returned None => (Returned MainActivity.Consumed, w, [])
         | Thrown e => (Thrown e, w, [Raise e])
         end
       else (Returned MainActivity.Consumed, w, [])
     else (Returned MainActivity.Super, w, [])) /\
  MainActivity.onKeyUp keyCode w
  = (if bool_decide (keyCode ∈ [280; 293; 294]) then
       if currentReactContext w then
         match jsModule w with
         | Returned (Some _) =>
             (Returned MainActivity.Consumed, w, [Emit "onTriggerRelease" None])
         | Returned None => (Returned MainActivity.Consumed, w, [])
         | Thrown e => (Thrown e, w, [Raise e])
         end
       else (Returned MainActivity.Consumed, w, [])
     else (Returned MainActivity.Super, w, [])).
Proof.
  assert (MainActivity.is_trigger_key keyCode
          = bool_decide (keyCode ∈ [280; 293; 294])) as Hkey.
  { unfold MainActivity.is_trigger_key.
    destruct (Z.eqb_spec keyCode 280) as [-> | H1]; [reflexivity |].
    destruct (Z.eqb_spec keyCode 293) as [-> | H2]; [reflexivity |].
    destruct (Z.eqb_spec keyCode 294) as [-> | H3]; [reflexivity |].
    cbn. symmetry. apply bool_decide_eq_false.
    rewrite !elem_of_cons, elem_of_nil. tauto. }
  unfold MainActivity.onKeyDown, MainActivity.onKeyUp,
    MainActivity.sendTriggerEvent.
  rewrite Hkey.
  unfold_monad. repeat (answer; cbn); split; reflexivity.
Qed.

(** X10. While the activity has no React context, or the context has no
    emitter, a key does nothing that shows: no event, no exception; the
    trigger keys 280, 293 and 294 are consumed all the same, every other
    key is left to the activity. *)
Theorem trigger_dropped_silently (w : World hw) (keyCode : Z) :
  currentReactContext w = false \/ jsModule w = Returned None ->
  MainActivity.onKeyDown keyCode w
  = (Returned (if bool_decide (keyCode ∈ [280; 293; 294])
               then MainActivity.Consumed else MainActivity.Super), w, []) /\
  MainActivity.onKeyUp keyCode w
  = (Returned (if bool_decide (keyCode ∈ [280; 293; 294])
               then MainActivity.Consumed else MainActivity.Super), w, []).
Proof.
  intros Hdrop. destruct (key_outcomes w keyCode) as [-> ->].
  destruct (bool_decide (keyCode ∈ [280; 293; 294])); [| split; reflexivity].
  destruct Hdrop as [-> | ->]; [split; reflexivity |].
  destruct (currentReactContext w); split; reflexivity.
Qed.

End Edges.

(** X14. [setPower] has no test for integers: every finite power from 0 to 30,
    fraction or not, goes to the native module as it is. *)
Theorem setPower_accepts_fractions (q : Q) :
  (0 <= q)%Q -> (q <= 30)%Q ->
  ChainwayRFID.setPower (ChainwayRFID.Finite q)
  = ChainwayRFID.Native (ChainwayRFID.N_setPower (ChainwayRFID.Finite q)).
Proof.
  unfold ChainwayRFID.setPower, ChainwayRFID.gt, ChainwayRFID.lt,
    ChainwayRFID.of_Z.
  unfold Qle, Qcompare. cbn [Qnum Qden inject_Z]. intros H0 H30.
  destruct (Z.compare_spec (Qnum q * 1) (0 * QDen q));
    destruct (Z.compare_spec (30 * QDen q) (Qnum q * 1));
    try lia; reflexivity.
Qed.

(** * The facade against the adapter *)

Section Channels.
Context {hw : Type} `{!IUHF hw}.

(** X12. Against the adapter the facade loads, and every constant it reads is
    one the adapter publishes, under the same key: no field of the facade
    is undefined. *)
Theorem facade_constants_defined :
  ChainwayRFID.load NativeModules_with_adapter
  = inr (ChainwayRFID.mkFacade
           (Some (CInt Bank_RESERVED)) (Some (CInt Bank_EPC))
           (Some (CInt Bank_TID)) (Some (CInt Bank_USER))
           (Some (CInt 0x01)) (Some (CInt 0x02)) (Some (CInt 0x04))
           (Some (CInt 0x08)) (Some (CInt 0x16)) (Some (CInt 0x32))
           (Some (CStr EVENT_TAG_READ)) (Some (CStr EVENT_INVENTORY_START))
           (Some (CStr EVENT_INVENTORY_STOP))).
Proof. reflexivity. Qed.

Lemma adapter_facade_channels (facade : ChainwayRFID.Facade) :
  ChainwayRFID.load NativeModules_with_adapter = inr facade ->
  ChainwayRFID.EVENT_TAG_READ facade = Some (CStr EVENT_TAG_READ) /\
  ChainwayRFID.EVENT_INVENTORY_START facade = Some (CStr EVENT_INVENTORY_START) /\
  ChainwayRFID.EVENT_INVENTORY_STOP facade = Some (CStr EVENT_INVENTORY_STOP).
Proof. intros [= <-]. repeat split. Qed.

(** X13. Every event the bridge emits has its listener helper: with the facade
    loaded against the adapter, one of the five helpers subscribes to the
    very name the event is emitted under, and [removeAllListeners] clears
    that name. *)
Theorem listeners_cover_events (listener : Type)
    (facade : ChainwayRFID.Facade) (ss : list stimulus) (w : World hw)
    (eventName : string) (params : option (gmap string string)) :
  ChainwayRFID.load NativeModules_with_adapter = inr facade ->
  In (Emit eventName params) (trace_of (run ss w)) ->
  (exists add,
     In add ChainwayRFID.listener_helpers /\
     forall callback : listener,
       add facade callback
       = ChainwayRFID.AddListener (Some (CStr eventName)) callback) /\
  In (ChainwayRFID.RemoveAllListeners (Some (CStr eventName)))
     (ChainwayRFID.removeAllListeners (listener := listener) facade).
Proof.
  intros Hload Hin.
  destruct (adapter_facade_channels facade Hload) as (Hread & Hstart & Hstop).
  destruct (run_In _ _ _ Hin) as (pre & s & post & _ & _ & Hs).
  unfold ChainwayRFID.listener_helpers, ChainwayRFID.removeAllListeners.
  destruct (react_events _ _ _ _ Hs) as [(-> & _) | [_ Hbare]].
  - split.
    + exists ChainwayRFID.addTagReadListener. split; [left; reflexivity |].
      intros callback. unfold ChainwayRFID.addTagReadListener.
      rewrite Hread. reflexivity.
    + left. rewrite Hread. reflexivity.
  - cbn in Hbare. destruct Hbare as [<- | [<- | [<- | [<- | []]]]].
    + split.
      * exists ChainwayRFID.addInventoryStartListener.
        split; [right; left; reflexivity |].
        intros callback. unfold ChainwayRFID.addInventoryStartListener.
        rewrite Hstart. reflexivity.
      * right; left. rewrite Hstart. reflexivity.
    + split.
      * exists ChainwayRFID.addInventoryStopListener.
        split; [do 2 right; left; reflexivity |].
        intros callback. unfold ChainwayRFID.addInventoryStopListener.
        rewrite Hstop. reflexivity.
      * do 2 right; left. rewrite Hstop. reflexivity.
    + split.
      * exists ChainwayRFID.addTriggerPressListener.
        split; [do 3 right; left; reflexivity |].
        intros callback. reflexivity.
      * do 3 right; left. reflexivity.
    + split.
      * exists ChainwayRFID.addTriggerReleaseListener.
        split; [do 4 right; left; reflexivity |].
        intros callback. reflexivity.
      * do 4 right; left. reflexivity.
Qed.

End Channels.

Lemma listeners_cover_events_witness :
  (exists add,
     In add ChainwayRFID.listener_helpers /\
     forall callback : nat,
       add SimReader.facade callback
       = ChainwayRFID.AddListener (Some (CStr "onTriggerPress")) callback) /\
  In (ChainwayRFID.RemoveAllListeners (Some (CStr "onTriggerPress")))
     (ChainwayRFID.removeAllListeners (listener := nat) SimReader.facade).
Proof.
  apply (listeners_cover_events (hw := SimReader.state) nat SimReader.facade
           [KeyDown 293] SimReader.fresh "onTriggerPress" None).
  - reflexivity.
  - vm_compute. left. reflexivity.
Defined.

(** * The tag list of the example screen *)

Section Decimal.
Import ChainwayRFID RFIDExample.

Lemma digit_of_pretty_N_char (d : N) :
  (d < 10)%N -> digit_of (pretty_N_char d) = Some (Z.of_N d).
Proof.
  intros Hd.
  assert (d = 0 \/ d = 1 \/ d = 2 \/ d = 3 \/ d = 4 \/ d = 5 \/ d = 6
          \/ d = 7 \/ d = 8 \/ d = 9)%N as Hcases by lia.
  repeat destruct Hcases as [-> | Hcases]; try reflexivity.
  subst d. reflexivity.
Qed.

(** Reading back the digits [pretty_N_go] writes in front of [s]. *)
Lemma decimal_digits_pretty_N_go (x : N) :
  forall s : string,
    (0 < x)%N ->
    decimal_digits 0 (pretty_N_go x s) = decimal_digits (Z.of_N x) s /\
    starts_with_digit (pretty_N_go x s) = true.
Proof.
  induction (N.lt_wf_0 x) as [x _ IH]; intros s Hx.
  rewrite pretty_N_go_step by exact Hx.
  assert (x `mod` 10 < 10)%N as Hd by (apply N.mod_lt; discriminate).
  pose proof (digit_of_pretty_N_char _ Hd) as Hdigit.
  assert (Z.of_N x = Z.of_N (x `div` 10) * 10 + Z.of_N (x `mod` 10)) as Hx10.
  { rewrite N2Z.inj_div, N2Z.inj_mod. cbn.
    pose proof (Z.div_mod (Z.of_N x) 10). lia. }
  destruct (N.eq_dec (x `div` 10) 0) as [Hz | Hnz].
  - rewrite Hz, pretty_N_go_0. cbn. rewrite Hdigit.
    rewrite Hz in Hx10. cbn in Hx10. rewrite Hx10. split; reflexivity.
  - destruct (IH (x `div` 10)%N) with
      (s := String (pretty_N_char (x `mod` 10)) s) as [Hval Hfirst].
    + apply N.div_lt; [exact Hx | reflexivity].
    + lia.
    + split; [| exact Hfirst].
      rewrite Hval. cbn. rewrite Hdigit, Hx10. reflexivity.
Qed.

Lemma digit_is_no_dash (c : Ascii.ascii) (s : string) :
  starts_with_digit (String c s) = true ->
  Ascii.eqb c (Ascii.ascii_of_nat 45) = false.
Proof.
  cbn. destruct (Ascii.eqb_spec c (Ascii.ascii_of_nat 45)) as [-> | _];
    [cbn; discriminate | reflexivity].
Qed.

(** The stand-in parser reads back what [pretty] prints. *)
Lemma decimal_parseInt_pretty (n : Z) : decimal_parseInt (pretty n) = of_Z n.
Proof.
  destruct n as [| p | p]; [reflexivity | |].
  - change (pretty (Z.pos p)) with (pretty_N_go (N.pos p) "").
    destruct (decimal_digits_pretty_N_go (N.pos p) "") as [Hval Hfirst];
      [reflexivity |].
    unfold decimal_parseInt.
    destruct (pretty_N_go (N.pos p) "") as [| c s] eqn:E; [discriminate Hfirst |].
    rewrite (digit_is_no_dash c s Hfirst), Hfirst, Hval. reflexivity.
  - change (pretty (Z.neg p))
      with (String (Ascii.ascii_of_nat 45) (pretty_N_go (N.pos p) "")).
    destruct (decimal_digits_pretty_N_go (N.pos p) "") as [Hval Hfirst];
      [reflexivity |].
    unfold decimal_parseInt. rewrite Ascii.eqb_refl, Hfirst, Hval. reflexivity.
Qed.

Lemma number_plus_one (n : Z) :
  number_plus (of_Z n) (of_Z 1) = of_Z (n + 1).
Proof.
  unfold number_plus, of_Z, inject_Z, Qplus. cbn [Qnum Qden].
  f_equal. rewrite !Z.mul_1_r. reflexivity.
Qed.

Lemma integer_String_pretty (n : Z) : integer_String (of_Z n) = pretty n.
Proof. unfold integer_String, of_Z. cbn. rewrite Z.div_1_r. reflexivity. Qed.

Lemma pretty_Z_not_empty (n : Z) : pretty n <> "".
Proof.
  destruct n as [| p | p]; [discriminate | | discriminate].
  change (pretty (Z.pos p)) with (pretty_N_go (N.pos p) "").
  destruct (decimal_digits_pretty_N_go (N.pos p) "") as [_ Hfirst];
    [reflexivity |].
  intros E. rewrite E in Hfirst. discriminate Hfirst.
Qed.

End Decimal.

Section TagList.
Import ChainwayRFID RFIDExample.
Variable parseInt : string -> number.
Variable plus : number -> number -> number.
Variable String_ : number -> string.

Lemma Map_get_set_eq (m : list (string * TagInfo)) (key : string) (v : TagInfo) :
  Map_get (Map_set m key v) key = Some v.
Proof.
  induction m as [| [k v'] m IH]; cbn.
  - rewrite bool_decide_eq_true_2; reflexivity.
  - destruct (bool_decide (k = key)) eqn:E; cbn; rewrite E; [reflexivity | exact IH].
Qed.

Lemma Map_get_set_ne (m : list (string * TagInfo)) (key key' : string) (v : TagInfo) :
  key <> key' ->
  Map_get (Map_set m key v) key' = Map_get m key'.
Proof.
  intros Hne. induction m as [| [k v'] m IH]; cbn.
  - rewrite bool_decide_eq_false_2; [reflexivity | exact Hne].
  - destruct (bool_decide (k = key)) eqn:E; cbn.
    + apply bool_decide_eq_true in E. subst k.
      rewrite bool_decide_eq_false_2; [reflexivity | exact Hne].
    + rewrite IH. reflexivity.
Qed.

Lemma Map_get_keys (m : list (string * TagInfo)) (key : string) :
  In key (Map_keys m) <-> Map_has m key = true.
Proof.
  unfold Map_has, Map_keys. induction m as [| [k v] m IH]; cbn.
  - split; [tauto | discriminate].
  - destruct (bool_decide (k = key)) eqn:E.
    + apply bool_decide_eq_true in E. tauto.
    + apply bool_decide_eq_false in E. rewrite <- IH. tauto.
Qed.

(** [set] keeps the keys where they are and puts a new key last. *)
Lemma Map_set_keys (m : list (string * TagInfo)) (key : string) (v : TagInfo) :
  Map_keys (Map_set m key v)
  = if Map_has m key then Map_keys m else Map_keys m ++ [key].
Proof.
  unfold Map_has, Map_keys. induction m as [| [k v'] m IH]; cbn.
  - reflexivity.
  - destruct (bool_decide (k = key)) eqn:E; cbn; [reflexivity |].
    rewrite IH. destruct (Map_get m key); reflexivity.
Qed.

Lemma onTagRead_keys (tag : TagInfo) (prevTags : list (string * TagInfo)) :
  Map_keys (onTagRead parseInt plus String_ tag prevTags)
  = if Map_has prevTags (epc tag) then Map_keys prevTags
    else Map_keys prevTags ++ [epc tag].
Proof.
  unfold onTagRead. cbn zeta.
  assert (forall t, epc (set_count tag t) = epc tag) as Hepc by reflexivity.
  unfold Map_has at 1.
  destruct (Map_get prevTags (epc tag)) eqn:E; rewrite ?Hepc; apply Map_set_keys.
Qed.

Lemma Map_set_keyed (m : list (string * TagInfo)) (v : TagInfo) :
  keyed_by_epc m -> keyed_by_epc (Map_set m (epc v) v).
Proof.
  unfold keyed_by_epc. induction m as [| [k v'] m IH]; cbn; intros H.
  - constructor; [reflexivity | constructor].
  - inversion H as [| ? ? Hhd Htl]; subst.
    destruct (bool_decide (k = epc v)) eqn:E.
    + apply bool_decide_eq_true in E. constructor; [cbn; congruence | exact Htl].
    + constructor; [exact Hhd | exact (IH Htl)].
Qed.

Lemma onTagRead_keyed (tag : TagInfo) (prevTags : list (string * TagInfo)) :
  keyed_by_epc prevTags ->
  keyed_by_epc (onTagRead parseInt plus String_ tag prevTags).
Proof.
  intros H. unfold onTagRead. cbn zeta.
  destruct (Map_has prevTags (epc tag)); [| apply Map_set_keyed; exact H].
  destruct (Map_get prevTags (epc tag)); [| apply Map_set_keyed; exact H].
  apply (Map_set_keyed prevTags (set_count tag _)). exact H.
Qed.

Lemma tags_after_app (reads1 reads2 : list TagInfo) (tags : list (string * TagInfo)) :
  tags_after parseInt plus String_ (reads1 ++ reads2) tags
  = tags_after parseInt plus String_ reads2
      (tags_after parseInt plus String_ reads1 tags).
Proof. unfold tags_after. apply fold_left_app. Qed.

Lemma keyed_values (m : list (string * TagInfo)) :
  keyed_by_epc m -> epc <$> Map_values m = Map_keys m.
Proof.
  unfold keyed_by_epc, Map_values, Map_keys.
  induction 1 as [| [k v] m Hhd _ IH]; cbn; [reflexivity |].
  cbn in Hhd. rewrite Hhd. f_equal. exact IH.
Qed.

Lemma tags_after_snoc (reads : list TagInfo) (tag : TagInfo) :
  tags_after parseInt plus String_ (reads ++ [tag]) []
  = onTagRead parseInt plus String_ tag
      (tags_after parseInt plus String_ reads []).
Proof. unfold tags_after. rewrite fold_left_app. reflexivity. Qed.

(** What the list is after any reads. *)
Lemma tags_after_invariant (reads : list TagInfo) :
  keyed_by_epc (tags_after parseInt plus String_ reads []) /\
  NoDup (Map_keys (tags_after parseInt plus String_ reads [])) /\
  (forall e, e ∈ Map_keys (tags_after parseInt plus String_ reads [])
             <-> e ∈ (epc <$> reads)).
Proof.
  induction reads as [| tag reads IH] using rev_ind.
  - split; [constructor | split; [constructor |]].
    intros e. cbn. reflexivity.
  - destruct IH as (Hkeyed & Hnodup & Hsame).
    rewrite tags_after_snoc. split; [| split].
    + apply onTagRead_keyed. exact Hkeyed.
    + rewrite onTagRead_keys.
      destruct (Map_has _ (epc tag)) eqn:Hhas; [exact Hnodup |].
      apply NoDup_app. split; [exact Hnodup | split; [| apply NoDup_singleton]].
      intros e He Hin. apply list_elem_of_singleton in Hin. subst e.
      apply list_elem_of_In, Map_get_keys in He. congruence.
    + intros e. rewrite onTagRead_keys, fmap_app, elem_of_app. cbn.
      rewrite list_elem_of_singleton.
      destruct (Map_has _ (epc tag)) eqn:Hhas.
      * rewrite Hsame. split; [tauto |]. intros [H | ->]; [exact H |].
        apply Hsame, list_elem_of_In, Map_get_keys. exact Hhas.
      * rewrite elem_of_app, list_elem_of_singleton, Hsame. reflexivity.
Qed.

(** X15. The tag list holds each EPC once: after any reads, starting from the
    empty list, the EPCs of the listed tags are pairwise different and are
    the EPCs that were read; one more read leaves a known EPC where it
    stands and puts a new EPC last. *)
Theorem tag_list_deduplicated (reads : list TagInfo) (tag : TagInfo) :
  NoDup (epc <$> Map_values (tags_after parseInt plus String_ reads [])) /\
  (forall e,
     e ∈ (epc <$> Map_values (tags_after parseInt plus String_ reads []))
     <-> e ∈ (epc <$> reads)) /\
  epc <$> Map_values (tags_after parseInt plus String_ (reads ++ [tag]) [])
  = (epc <$> Map_values (tags_after parseInt plus String_ reads []))
    ++ (if bool_decide (epc tag ∈ (epc <$> reads)) then [] else [epc tag]).
Proof.
  destruct (tags_after_invariant reads) as (Hkeyed & Hnodup & Hsame).
  destruct (tags_after_invariant (reads ++ [tag])) as (Hkeyed' & _ & _).
  rewrite !keyed_values by assumption.
  split; [exact Hnodup | split; [exact Hsame |]].
  rewrite tags_after_snoc, onTagRead_keys.
  destruct (Map_has _ (epc tag)) eqn:Hhas.
  - rewrite bool_decide_eq_true_2; [symmetry; apply app_nil_r |].
    apply Hsame, list_elem_of_In, Map_get_keys. exact Hhas.
  - rewrite bool_decide_eq_false_2; [reflexivity |].
    intros Hin. apply Hsame, list_elem_of_In, Map_get_keys in Hin. congruence.
Qed.

End TagList.

Section TagCount.
Import ChainwayRFID RFIDExample.
Variable parseInt : string -> number.
Variable plus : number -> number -> number.
Variable String_ : number -> string.

(** What the builtins do on the integers a double holds exactly. *)
Hypothesis parseInt_decimal :
  forall n, safe_integer n -> parseInt (pretty n) = of_Z n.
Hypothesis plus_one :
  forall n, safe_integer n -> safe_integer (n + 1) ->
            plus (of_Z n) (of_Z 1) = of_Z (n + 1).
Hypothesis String_decimal :
  forall n, safe_integer n -> String_ (of_Z n) = pretty n.

Lemma count_after (reads : list TagInfo) :
  forall (tags : list (string * TagInfo)) (key : string) (existing : TagInfo)
         (c : Z),
    Map_get tags key = Some existing ->
    count existing = pretty c ->
    safe_integer c ->
    safe_integer (c + Z.of_nat (length reads)) ->
    exists listed,
      Map_get (tags_after parseInt plus String_ reads tags) key = Some listed /\
      count listed = pretty (c + Z.of_nat (length (reads_of key reads))).
Proof.
  induction reads as [| tag reads IH]; intros tags key existing c Hget Hc Hsafe Hend.
  - exists existing. cbn. rewrite Z.add_0_r. split; assumption.
  - cbn [length] in Hend. rewrite Nat2Z.inj_succ in Hend.
    pose proof (Nat2Z.is_nonneg (length reads)) as Hnonneg.
    cbn [tags_after fold_left length reads_of List.filter].
    change (fold_left _ reads ?m) with (tags_after parseInt plus String_ reads m).
    destruct (bool_decide (epc tag = key)) eqn:E.
    + apply bool_decide_eq_true in E.
      assert (onTagRead parseInt plus String_ tag tags
              = Map_set tags key (set_count tag (pretty (c + 1)))) as Hstep.
      { unfold onTagRead, Map_has. cbn zeta. rewrite E, Hget, Hc.
        unfold or_else.
        rewrite bool_decide_eq_false_2 by apply pretty_Z_not_empty.
        rewrite parseInt_decimal, plus_one, String_decimal;
          unfold safe_integer in *; try lia.
        cbn. rewrite E. reflexivity. }
      rewrite Hstep.
      destruct (IH (Map_set tags key (set_count tag (pretty (c + 1)))) key
                  (set_count tag (pretty (c + 1))) (c + 1))
        as (listed & Hlisted & Hcount).
      * apply Map_get_set_eq.
      * reflexivity.
      * unfold safe_integer in *. lia.
      * unfold safe_integer in *. lia.
      * exists listed. split; [exact Hlisted |].
        rewrite Hcount. unfold reads_of. cbn [length].
        rewrite Nat2Z.inj_succ. f_equal. lia.
    + apply bool_decide_eq_false in E.
      destruct (IH (onTagRead parseInt plus String_ tag tags) key existing c)
        as (listed & Hlisted & Hcount).
      * unfold onTagRead. cbn zeta.
        assert (forall t, epc (set_count tag t) = epc tag) as Hepc by reflexivity.
        destruct (Map_has tags (epc tag)); [destruct (Map_get tags (epc tag)) |];
          rewrite ?Hepc, Map_get_set_ne by exact E; exact Hget.
      * exact Hc.
      * exact Hsafe.
      * unfold safe_integer in *. lia.
      * exists listed. split; assumption.
Qed.

(** X16. The list counts the reads of a tag: a tag first read with the count
    [c] the SDK reported is listed, after any further reads, with [c] plus
    the number of times its EPC was read again. *)
Theorem count_accumulates (first : TagInfo) (reads : list TagInfo)
    (tags : list (string * TagInfo)) (c : Z) :
  Map_has tags (epc first) = false ->
  count first = pretty c ->
  safe_integer c ->
  safe_integer (c + Z.of_nat (length reads)) ->
  exists listed,
    Map_get (tags_after parseInt plus String_ (first :: reads) tags) (epc first)
    = Some listed /\
    count listed
    = pretty (c + Z.of_nat (length (reads_of (epc first) reads))).
Proof.
  intros Hnew Hc Hsafe Hend.
  cbn [tags_after fold_left].
  change (fold_left _ reads ?m) with (tags_after parseInt plus String_ reads m).
  assert (onTagRead parseInt plus String_ first tags
          = Map_set tags (epc first) first) as ->.
  { unfold onTagRead. cbn zeta. rewrite Hnew. reflexivity. }
  apply (count_after reads _ (epc first) first c); try assumption.
  apply Map_get_set_eq.
Qed.

End TagCount.

Lemma count_accumulates_witness :
  exists listed,
    RFIDExample.Map_get
      (RFIDExample.tags_after RFIDExample.decimal_parseInt
         RFIDExample.number_plus RFIDExample.integer_String
         [RFIDExample.tag_a; RFIDExample.tag_b; RFIDExample.tag_a;
          RFIDExample.tag_a] [])
      (ChainwayRFID.epc RFIDExample.tag_a) = Some listed /\
    ChainwayRFID.count listed
    = pretty (1 + Z.of_nat
                    (length (RFIDExample.reads_of
                               (ChainwayRFID.epc RFIDExample.tag_a)
                               [RFIDExample.tag_b; RFIDExample.tag_a;
                                RFIDExample.tag_a]))).
Proof.
  apply (count_accumulates RFIDExample.decimal_parseInt
           RFIDExample.number_plus RFIDExample.integer_String
           (fun n _ => decimal_parseInt_pretty n)
           (fun n _ _ => number_plus_one n)
           (fun n _ => integer_String_pretty n)
           RFIDExample.tag_a
           [RFIDExample.tag_b; RFIDExample.tag_a; RFIDExample.tag_a] [] 1).
  - reflexivity.
  - reflexivity.
  - unfold RFIDExample.safe_integer. lia.
  - unfold RFIDExample.safe_integer. cbn. lia.
Defined.

(** * The further properties on the simulated reader *)

Lemma rejection_causes_witness :
  (is_init R_inventorySingleTag = false /\
   rfidReader SimReader.empty_room = None /\
   Reject "NO_TAG" "No tag found" = NOT_INITIALIZED) \/
  (ready R_inventorySingleTag SimReader.empty_room = true /\
   returns_sentinel R_inventorySingleTag (device SimReader.empty_room) = true /\
   Reject "NO_TAG" "No tag found" = sentinel_outcome R_inventorySingleTag) \/
  (exists e,
     In (Raise e) (trace_of (invoke R_inventorySingleTag SimReader.empty_room)) /\
     instanceOf_Exception e = true /\
     "NO_TAG" = reported_code R_inventorySingleTag e).
Proof.
  apply (rejection_causes R_inventorySingleTag SimReader.empty_room
           "NO_TAG" "No tag found").
  vm_compute. right. left. reflexivity.
Defined.

Lemma failed_init_arms_witness :
  rfidReader
    (world_of (init (startup SimReader.detached SimReader.emitter_ready true)))
  = Some TheReader /\
  ~ In NOT_INITIALIZED
      (trace_of
         (invoke (R_setPower 26)
            (world_of
               (init (startup SimReader.detached SimReader.emitter_ready true))))).
Proof.
  apply (failed_init_arms
           (startup SimReader.detached SimReader.emitter_ready true)
           TheReader SimReader.detached (R_setPower 26));
    reflexivity.
Defined.

Lemma run_events_witness :
  (EVENT_TAG_READ = EVENT_TAG_READ /\
   exists uhftagInfo,
     Some (createTagMap (Some SimReader.tag1)) = Some (createTagMap uhftagInfo)) \/
  (Some (createTagMap (Some SimReader.tag1)) = None /\
   In EVENT_TAG_READ bare_events).
Proof.
  apply (run_events
           [JsCall R_init; JsCall R_startInventory;
            TagCallback (Some SimReader.tag1)] SimReader.fresh
           EVENT_TAG_READ (Some (createTagMap (Some SimReader.tag1)))).
  vm_compute. do 7 right. left. reflexivity.
Defined.

Lemma stays_armed_witness :
  rfidReader
    (world_of (run [JsCall R_free; JsCall R_getPower; KeyDown 293]
                 SimReader.ready_world)) = Some TheReader /\
  ~ In NOT_INITIALIZED
      (trace_of (run [JsCall R_free; JsCall R_getPower; KeyDown 293]
                   SimReader.ready_world)).
Proof.
  apply (stays_armed [JsCall R_free; JsCall R_getPower; KeyDown 293]
           SimReader.ready_world TheReader);
    reflexivity.
Defined.

Lemma tag_read_needs_start_witness :
  (exists uhftagInfo,
     TagCallback (Some SimReader.tag1) = TagCallback uhftagInfo /\
     Some (createTagMap (Some SimReader.tag1)) = Some (createTagMap uhftagInfo)) /\
  In (JsCall R_startInventory) [JsCall R_init; JsCall R_startInventory].
Proof.
  apply (tag_read_needs_start [JsCall R_init; JsCall R_startInventory]
           (TagCallback (Some SimReader.tag1))
           SimReader.bench SimReader.emitter_ready true
           (Some (createTagMap (Some SimReader.tag1)))).
  - reflexivity.
  - vm_compute. left. reflexivity.
Defined.

Lemma tags_relayed_after_stop_witness :
  react (TagCallback (Some SimReader.tag1))
    (world_of (run [JsCall R_stopInventory; JsCall R_free]
                 SimReader.inventory_running))
  = (Returned tt,
     world_of (run [JsCall R_stopInventory; JsCall R_free]
                 SimReader.inventory_running),
     [Emit EVENT_TAG_READ (Some (createTagMap (Some SimReader.tag1)))]).
Proof.
  apply (tags_relayed_after_stop [JsCall R_stopInventory; JsCall R_free]
           SimReader.inventory_running (Some SimReader.tag1));
    reflexivity.
Defined.

Lemma emit_failure_after_hardware_witness :
  startInventory SimReader.torn_down
  = (Returned tt,
     mkWorld (SimReader.with_inventorying true
                (SimReader.with_opened true SimReader.bench))
             (Some TheReader) true (Thrown SimReader.instance_gone) true,
     [HwCall SetInventoryCallback; HwCall StartInventoryTag;
      Raise SimReader.instance_gone;
      Reject "START_ERROR"
        (concat_message "Error starting inventory: " SimReader.instance_gone)]).
Proof.
  apply (proj1 (emit_failure_after_hardware SimReader.torn_down TheReader
                  SimReader.instance_gone eq_refl eq_refl eq_refl)
           (SimReader.with_opened true SimReader.bench));
    reflexivity.
Defined.

Lemma trigger_dropped_silently_witness :
  MainActivity.onKeyDown 293 SimReader.no_context
  = (Returned MainActivity.Consumed, SimReader.no_context, []) /\
  MainActivity.onKeyUp 293 SimReader.no_context
  = (Returned MainActivity.Consumed, SimReader.no_context, []).
Proof.
  apply (trigger_dropped_silently SimReader.no_context 293).
  left. reflexivity.
Defined.

Lemma setPower_accepts_fractions_witness :
  ChainwayRFID.setPower (ChainwayRFID.Finite (25 # 2))
  = ChainwayRFID.Native (ChainwayRFID.N_setPower (ChainwayRFID.Finite (25 # 2))).
Proof.
  apply (setPower_accepts_fractions (25 # 2)); discriminate.
Defined.
